(** * Task page: filtering, sorting, wizard and CRUD handlers

    A shallow embedding of the task page component (the [TasksPage]
    function of the task manager front end) and the properties its
    specification states about it.

    The component is a React function: its state cells ([tasks], [filter],
    [sortBy], [step]) and the form store of the form library are threaded
    explicitly through a [State] record; the remote data service is an
    environment record of response functions; every request and every console
    line the handlers produce is appended to a trace kept in the state. *)

From Stdlib Require Import List ZArith NArith Bool Lia Permutation Sorted.
From Stdlib Require Import String Ascii.
Import ListNotations.

Local Open Scope Z_scope.

(** ** JavaScript strings *)

Module JsString.

(** A JavaScript string is a sequence of UTF-16 code units. *)
Definition jsstring := list N.

(** String literals of the source (all of them are ASCII). *)
Definition lit (s : string) : jsstring :=
  map N_of_ascii (list_ascii_of_string s).

Definition eqb (a b : jsstring) : bool :=
  if list_eq_dec N.eq_dec a b then true else false.

(** A string is truthy when it is not empty. *)
Definition truthy (s : jsstring) : bool :=
  match s with [] => false | _ :: _ => true end.

(** [WhiteSpace] and [LineTerminator] code points, the ones
    [String.prototype.trim] strips. *)
Definition is_whitespace (c : N) : bool :=
  (N.eqb c 9 || N.eqb c 10 || N.eqb c 11 || N.eqb c 12 || N.eqb c 13
   || N.eqb c 32 || N.eqb c 160 || N.eqb c 5760
   || (N.leb 8192 c && N.leb c 8202)
   || N.eqb c 8232 || N.eqb c 8233 || N.eqb c 8239 || N.eqb c 8287
   || N.eqb c 12288 || N.eqb c 65279)%bool.

Fixpoint trim_start (s : jsstring) : jsstring :=
  match s with
  | [] => []
  | c :: s' => if is_whitespace c then trim_start s' else s
  end.

Definition trim_end (s : jsstring) : jsstring :=
  rev (trim_start (rev s)).

(** [s.trim()] *)
Definition trim (s : jsstring) : jsstring :=
  trim_end (trim_start s).

(** [a.localeCompare(b)]: the page only compares ISO dates and timestamps,
    on which the collation order is the order of the code units; the result
    is negative, zero or positive. *)
Definition localeCompare (a b : jsstring) : Z :=
  match list_compare N.compare a b with
  | Lt => -1
  | Eq => 0
  | Gt => 1
  end.

Definition leb (a b : jsstring) : bool :=
  localeCompare a b <=? 0.

End JsString.

Import JsString.

(** ** [Array.prototype.sort] *)

Module JsSort.

(** A JavaScript number as a comparator returns it; the page's comparators
    only produce small integers and [NaN]. *)
Inductive jsnum :=
| Num (z : Z)
| NaN.

(** [SortCompare]: a [NaN] from the comparator counts as [+0]. *)
Definition sort_compare {A} (comparefn : A -> A -> jsnum) (x y : A) : Z :=
  match comparefn x y with
  | Num z => z
  | NaN => 0
  end.

(** The sort is stable, and its result is specified only for a comparator
    that is a consistent comparison function; otherwise the order is left to
    the engine.  An engine moves an element [x] towards the front, past an
    element [y] that stood before it, when the comparator says so; engines
    differ in how they ask:
    - [LaterFirst]: call [comparefn(x, y)] and move on a negative result
      (V8);
    - [EarlierFirst]: call [comparefn(y, x)] and move on a positive result
      (SpiderMonkey).
    On a consistent comparator the two agree, and every stable sorting
    algorithm gives the result of the insertion below. *)
Inductive Engine :=
| LaterFirst
| EarlierFirst.

Definition moves_before {A} (e : Engine) (comparefn : A -> A -> jsnum)
    (x y : A) : bool :=
  match e with
  | LaterFirst => sort_compare comparefn x y <? 0
  | EarlierFirst => 0 <? sort_compare comparefn y x
  end.

Section Insertion.
Context {A : Type}.
Variable before : A -> A -> bool.

(** [place x rp]: [rp] is the part already sorted, last element first;
    [x] travels towards the front while [before x y] holds. *)
Fixpoint place (x : A) (rp : list A) : list A :=
  match rp with
  | [] => [x]
  | y :: rp' => if before x y then y :: place x rp' else x :: rp
  end.

Fixpoint insertion (rp l : list A) : list A :=
  match l with
  | [] => rev rp
  | x :: l' => insertion (place x rp) l'
  end.
End Insertion.

(** [l.sort(comparefn)], as a function of the array's content. *)
Definition sort {A} (e : Engine) (comparefn : A -> A -> jsnum)
    (l : list A) : list A :=
  insertion (moves_before e comparefn) [] l.

End JsSort.

Import JsSort.

(** ** Data model *)

Module Task.

(** [type Task].  An optional field that is absent is [None]; [priority]
    is kept as the string the service returned, or [None] when the row has
    none. *)
Record Task := mk {
  id : jsstring;
  title : jsstring;
  due_date : option jsstring;
  note : option jsstring;
  priority : option jsstring;
  completed : bool;
  created_at : option jsstring
}.

(** [{ ...t, completed: c }] *)
Definition set_completed (t : Task) (c : bool) : Task :=
  mk (id t) (title t) (due_date t) (note t) (priority t) c (created_at t).

End Task.

Module FormData.

(** [type FormData] *)
Record FormData := mk {
  title : jsstring;
  due_date : option jsstring;
  note : option jsstring;
  priority : option jsstring;
  tags : option jsstring;
  subtasks : option jsstring;
  recurring_interval : option jsstring
}.

(** The values after the form library's [reset()] (no default values are
    configured). *)
Definition empty : FormData := mk [] None None None None None None.

End FormData.

(** ** The derived list: filter and sort *)

Module View.

Inductive Filter := All | Completed | Pending.
Inductive SortBy := Newest | Due | Priority.

(** The value of an optional string when it is truthy (present and not
    empty). *)
Definition truthy_string (v : option jsstring) : option jsstring :=
  match v with
  | Some (c :: s) => Some (c :: s)
  | _ => None
  end.

(** [v || ""] *)
Definition or_empty (v : option jsstring) : jsstring :=
  match v with
  | Some s => s
  | None => []
  end.

(** The comparator of sort mode "due". *)
Definition due_compare (a b : Task.Task) : jsnum :=
  match truthy_string (Task.due_date a) with
  | None => Num 1
  | Some da =>
      match truthy_string (Task.due_date b) with
      | None => Num (-1)
      | Some db => Num (localeCompare da db)
      end
  end.

(** What a property read or [||] yields in the priority comparator:
    nothing, a number, or an object (a function counts as one). *)
Inductive jsval :=
| Undefined
| Number (z : Z)
| Object.

(** The property names every object literal inherits from
    [Object.prototype]; each of them reads as a function or an object. *)
Definition object_prototype_keys : list jsstring :=
  map lit ["constructor"; "hasOwnProperty"; "isPrototypeOf";
           "propertyIsEnumerable"; "toLocaleString"; "toString"; "valueOf";
           "__proto__"; "__defineGetter__"; "__defineSetter__";
           "__lookupGetter__"; "__lookupSetter__"]%string.

(** [priorityOrder[key]] for
    [const priorityOrder = { High: 1, Medium: 2, Low: 3 }]. *)
Definition priorityOrder (key : jsstring) : jsval :=
  if JsString.eqb key (lit "High") then Number 1
  else if JsString.eqb key (lit "Medium") then Number 2
  else if JsString.eqb key (lit "Low") then Number 3
  else if existsb (JsString.eqb key) object_prototype_keys then Object
  else Undefined.

(** The property key a [priority] value is converted to. *)
Definition property_key (p : option jsstring) : jsstring :=
  match p with
  | Some s => s
  | None => lit "undefined"
  end.

Definition truthy_val (v : jsval) : bool :=
  match v with
  | Undefined => false
  | Number z => negb (z =? 0)
  | Object => true
  end.

(** [v || d] *)
Definition or_number (v : jsval) (d : Z) : jsval :=
  if truthy_val v then v else Number d.

Definition to_number (v : jsval) : jsnum :=
  match v with
  | Number z => Num z
  | Undefined | Object => NaN
  end.

(** [a - b] *)
Definition minus (a b : jsval) : jsnum :=
  match to_number a, to_number b with
  | Num x, Num y => Num (x - y)
  | _, _ => NaN
  end.

(** [priorityOrder[t.priority] || 3] *)
Definition rank_value (t : Task.Task) : jsval :=
  or_number (priorityOrder (property_key (Task.priority t))) 3.

(** The comparator of sort mode "priority". *)
Definition priority_compare (a b : Task.Task) : jsnum :=
  minus (rank_value a) (rank_value b).

(** The comparator of sort mode "newest". *)
Definition newest_compare (a b : Task.Task) : jsnum :=
  Num (localeCompare (or_empty (Task.created_at b))
                     (or_empty (Task.created_at a))).

(** The body of the [useMemo] that computes [filteredTasks], on the engine
    [e] the page runs on. *)
Definition filteredTasks (e : Engine) (tasks : list Task.Task)
    (filter : Filter) (sortBy : SortBy) : list Task.Task :=
  let result :=
    map (fun t => Task.set_completed t (negb (negb (Task.completed t))))
        tasks in
  let result :=
    match filter with
    | Completed => List.filter (fun t => Task.completed t) result
    | _ => result
    end in
  let result :=
    match filter with
    | Pending => List.filter (fun t => negb (Task.completed t)) result
    | _ => result
    end in
  match sortBy with
  | Due => sort e due_compare result
  | Priority => sort e priority_compare result
  | Newest => sort e newest_compare result
  end.

(** The identifiers shown for a filter and sort mode. *)
Definition shown_ids (e : Engine) (tasks : list Task.Task)
    (filter : Filter) (sortBy : SortBy) : list jsstring :=
  map Task.id (filteredTasks e tasks filter sortBy).

End View.

Import View.

(** ** The remote data service *)

Module Service.

(** A JSON value of a request body. *)
Inductive Json :=
| JNull
| JString (s : jsstring).

(** A row sent with [insert]: the object literal, key by key. *)
Definition Row := list (jsstring * Json).

Record Session := { user_id : jsstring }.

(** The [{ data, error }] pair of a call that selects a single row; an
    error is represented by its message. *)
Record Response := {
  data : option Task.Task;
  error : option jsstring
}.

(** What the service answers to each call the page makes. *)
Record Service := {
  getSession : option Session;
  insert_row : Row -> Response;
  delete_row : jsstring -> option jsstring;
  update_row : jsstring -> bool -> Response
}.

(** What the page does to the outside: its calls and its console lines. *)
Inductive Event :=
| GetSession
| Insert (row : Row)
| Delete (id : jsstring)
| Update (id : jsstring) (completed : bool)
| ConsoleError (label message : jsstring).

End Service.

(** ** The page: state, handlers, wizard buttons *)

Module Page.

Import Service.

Record State := mk {
  tasks : list Task.Task;
  filter : Filter;
  sortBy : SortBy;
  step : Z;
  form : FormData.FormData;
  trace : list Event
}.

(** The state the component mounts with. *)
Definition initial : State := mk [] All Newest 1 FormData.empty [].

(** A handler is a computation over the page state. *)
Definition Handler (A : Type) : Type := State -> A * State.

Definition ret {A} (a : A) : Handler A := fun st => (a, st).

Definition bind {A B} (m : Handler A) (k : A -> Handler B) : Handler B :=
  fun st => let (a, st') := m st in k a st'.

Notation "x <- m ;; k" := (bind m (fun x => k))
  (at level 61, m at next level, right associativity).
Notation "m ;; k" := (bind m (fun _ => k))
  (at level 61, right associativity).

Definition emit (ev : Event) : Handler unit :=
  fun st => (tt, mk (tasks st) (filter st) (sortBy st) (step st) (form st)
                    (trace st ++ [ev])).

Definition setTasks (f : list Task.Task -> list Task.Task) : Handler unit :=
  fun st => (tt, mk (f (tasks st)) (filter st) (sortBy st) (step st)
                    (form st) (trace st)).

Definition setStep (n : Z) : Handler unit :=
  fun st => (tt, mk (tasks st) (filter st) (sortBy st) n (form st)
                    (trace st)).

Definition reset : Handler unit :=
  fun st => (tt, mk (tasks st) (filter st) (sortBy st) (step st)
                    FormData.empty (trace st)).

Section Handlers.
Variable supabase : Service.

(** [v || null] *)
Definition or_null (v : option jsstring) : Json :=
  match truthy_string v with
  | Some s => JString s
  | None => JNull
  end.

(** [v || "Medium"] *)
Definition or_medium (v : option jsstring) : Json :=
  match truthy_string v with
  | Some s => JString s
  | None => JString (lit "Medium")
  end.

(** The object literal passed to [insert]. *)
Definition new_row (session : Session) (data : FormData.FormData) : Row :=
  [ (lit "user_id", JString (user_id session));
    (lit "title", JString (FormData.title data));
    (lit "due_date", or_null (FormData.due_date data));
    (lit "note", or_null (FormData.note data));
    (lit "priority", or_medium (FormData.priority data)) ].

Definition addTask (data : FormData.FormData) : Handler unit :=
  if negb (truthy (trim (FormData.title data))) then ret tt
  else
    emit GetSession ;;
    match getSession supabase with
    | None => ret tt
    | Some session =>
        emit (Insert (new_row session data)) ;;
        let r := insert_row supabase (new_row session data) in
        match error r with
        | Some message =>
            emit (ConsoleError (lit "Error adding task:") message)
        | None =>
            match Service.data r with
            | Some newTask => setTasks (fun prev => newTask :: prev)
            | None => ret tt
            end ;;
            reset ;;
            setStep 1
        end
    end.

Definition deleteTask (id : jsstring) : Handler unit :=
  emit (Delete id) ;;
  match delete_row supabase id with
  | Some message =>
      emit (ConsoleError (lit "Error deleting task:") message)
  | None =>
      setTasks (fun prev =>
        List.filter (fun task => negb (JsString.eqb (Task.id task) id))
                    prev)
  end.

Definition toggleTask (task : Task.Task) : Handler unit :=
  emit (Update (Task.id task) (negb (Task.completed task))) ;;
  let r := update_row supabase (Task.id task)
                      (negb (Task.completed task)) in
  match error r with
  | Some message =>
      emit (ConsoleError (lit "Error toggling task:") message)
  | None =>
      match Service.data r with
      | Some updatedTask =>
          setTasks (fun prev =>
            map (fun t =>
                   if JsString.eqb (Task.id t) (Task.id updatedTask)
                   then updatedTask else t)
                prev)
      | None => ret tt
      end
  end.

(** The state after a handler has run. *)
Definition run (h : Handler unit) (st : State) : State := snd (h st).

(** Submitting the form hands its current values to [addTask]. *)
Definition submit (st : State) : State := run (addTask (form st)) st.
End Handlers.

(** The two navigation buttons of the wizard. *)
Inductive Button := Back | Next.

(** A button is in the page only under its guard. *)
Definition rendered (b : Button) (st : State) : bool :=
  match b with
  | Back => 1 <? step st
  | Next => step st <? 3
  end.

Definition onClick (b : Button) : Handler unit :=
  fun st =>
    match b with
    | Back => setStep (step st - 1) st
    | Next => setStep (step st + 1) st
    end.

(** A click reaches the handler only when the button is rendered. *)
Definition click (b : Button) (st : State) : State :=
  if rendered b st then run (onClick b) st else st.

Definition clicks (bs : list Button) (st : State) : State :=
  fold_left (fun s b => click b s) bs st.

End Page.

(** ** Vocabulary of the properties *)

Module Props.

Import Service Page.

(** A task has a due date when the field is present and not empty: that is
    the test [!t.due_date] of the comparator, negated. *)
Definition has_due_date (t : Task.Task) : bool :=
  match truthy_string (Task.due_date t) with
  | Some _ => true
  | None => false
  end.

(** The order the specification gives for sort mode "due": ascending on
    the due dates, every task without one after every task with one. *)
Definition due_le (a b : Task.Task) : Prop :=
  match truthy_string (Task.due_date a),
        truthy_string (Task.due_date b) with
  | Some da, Some db => localeCompare da db <= 0
  | Some _, None => True
  | None, Some _ => False
  | None, None => True
  end.

(** The rank the specification gives a priority: High 1, Medium 2, Low 3,
    anything else, or none, 3. *)
Definition rank (t : Task.Task) : Z :=
  match Task.priority t with
  | Some p =>
      if JsString.eqb p (lit "High") then 1
      else if JsString.eqb p (lit "Medium") then 2
      else 3
  | None => 3
  end.

(** A priority is plain when it is not the name of a property that every
    object inherits. *)
Definition plain_priority (t : Task.Task) : bool :=
  negb (existsb (JsString.eqb (property_key (Task.priority t)))
                object_prototype_keys).

(** [a] stands before [b] at every pair of positions of [out] that holds
    them with [rank a < rank b]. *)
Definition ranks_in_order (out : list Task.Task) : Prop :=
  forall i j a b,
    nth_error out i = Some a -> nth_error out j = Some b ->
    rank a < rank b -> (i < j)%nat.

(** The tasks of one rank stand in [out] as they stand in [input]. *)
Definition rank_stable (input out : list Task.Task) : Prop :=
  forall r,
    List.filter (fun t => rank t =? r) out
    = List.filter (fun t => rank t =? r) input.

(** Which tasks a filter mode keeps. *)
Definition kept (f : Filter) (t : Task.Task) : bool :=
  match f with
  | All => true
  | Completed => Task.completed t
  | Pending => negb (Task.completed t)
  end.

(** The comparator of a sort mode. *)
Definition comparator (s : SortBy) : Task.Task -> Task.Task -> jsnum :=
  match s with
  | Newest => newest_compare
  | Due => due_compare
  | Priority => priority_compare
  end.

(** Two lists of identifiers have none in common. *)
Definition disjoint (l1 l2 : list jsstring) : Prop :=
  forall i, In i l1 -> ~ In i l2.

(** What a handler adds to the trace. *)
Definition emitted (h : Handler unit) (st : State) : list Event :=
  skipn (List.length (trace st)) (trace (run h st)).

(** The page state apart from the trace. *)
Definition same_page (st st' : State) : Prop :=
  tasks st' = tasks st /\ filter st' = filter st /\ sortBy st' = sortBy st
  /\ step st' = step st /\ form st' = form st.

(** The form values with other step-3 fields. *)
Definition with_extras (data : FormData.FormData)
    (tags subtasks recurring_interval : option jsstring)
    : FormData.FormData :=
  FormData.mk (FormData.title data) (FormData.due_date data)
              (FormData.note data) (FormData.priority data)
              tags subtasks recurring_interval.

(** The page state with other form values. *)
Definition with_form (data : FormData.FormData) (st : State) : State :=
  Page.mk (tasks st) (filter st) (sortBy st) (step st) data (trace st).

(** The value an [insert] row holds under a key. *)
Fixpoint field (key : jsstring) (row : Row) : option Json :=
  match row with
  | [] => None
  | (k, v) :: row' => if JsString.eqb k key then Some v else field key row'
  end.

(** A title is blank when every code unit of it is white space. *)
Definition blank (s : jsstring) : bool := forallb is_whitespace s.

(** A service whose update of the row of [t] succeeds and returns the row
    with the requested flag. *)
Definition applies_update (supabase : Service) (t : Task.Task) : Prop :=
  forall c,
    update_row supabase (Task.id t) c
    = Build_Response (Some (Task.set_completed t c)) None.

End Props.

Import Props.

(** ** Concrete inputs *)

Module Examples.

Import Service Page.
Local Open Scope string_scope.

Definition task (id : string) (due_date priority : option string)
    (completed : bool) : Task.Task :=
  Task.mk (lit id) (lit id) (option_map lit due_date) None
          (option_map lit priority) completed None.

(** Two tasks without a due date. *)
Definition undated1 : Task.Task := task "u1" None (Some "Medium") false.
Definition undated2 : Task.Task := task "u2" None (Some "Medium") false.

Definition low : Task.Task := task "l" None (Some "Low") false.
Definition odd : Task.Task := task "o" None (Some "constructor") false.
Definition high : Task.Task := task "h" None (Some "High") false.
Definition unranked : Task.Task := task "m" (Some "2024-02-01") None true.

(** Task 1: Low, no due date, created first; task 2: High, due, created
    second. *)
Definition first_low : Task.Task :=
  Task.mk (lit "1") (lit "A") None None (Some (lit "Low")) false
          (Some (lit "2024-01-01")).
Definition second_high : Task.Task :=
  Task.mk (lit "2") (lit "B") (Some (lit "2024-02-01")) None
          (Some (lit "High")) false (Some (lit "2024-01-02")).

(** Two rows that carry the same identifier. *)
Definition twin_done : Task.Task := task "1" None (Some "Low") true.
Definition twin_open : Task.Task := task "1" None (Some "High") false.

Definition draft (title : string) : FormData.FormData :=
  FormData.mk (lit title) (Some (lit "")) None None
              (Some (lit "home, urgent")) (Some (lit "a, b"))
              (Some (lit "weekly")).

(** A title of two spaces, a tab and an ideographic space. *)
Definition blank_draft : FormData.FormData :=
  FormData.mk (lit "  " ++ [9%N; 12288%N])%list (Some (lit "2024-02-01")) None
              (Some (lit "High")) None None None.

(** A title with white space on both sides. *)
Definition padded_draft : FormData.FormData := draft "  Buy milk ".

Definition session : Session := {| user_id := lit "user-1" |}.

(** A service that is signed in and refuses every call. *)
Definition failing : Service :=
  {| getSession := Some session;
     insert_row := fun _ => Build_Response None (Some (lit "denied"));
     delete_row := fun _ => Some (lit "denied");
     update_row := fun _ _ => Build_Response None (Some (lit "denied")) |}.

(** A service that is signed in and holds the row [row]: an insert returns
    it, a delete succeeds, an update returns it with the requested flag. *)
Definition serving (row : Task.Task) : Service :=
  {| getSession := Some session;
     insert_row := fun _ => Build_Response (Some row) None;
     delete_row := fun _ => None;
     update_row := fun _ c =>
       Build_Response (Some (Task.set_completed row c)) None |}.

Definition page (tasks : list Task.Task) : State :=
  Page.mk tasks All Newest 3 (draft "Buy milk") [].

End Examples.

(** ** What the page renders *)

Module Render.

Import Page.

(** [getPriorityColor(priority)], on the priority of a task (a missing one
    reaches the [default] case). *)
Definition getPriorityColor (priority : option jsstring) : jsstring :=
  match priority with
  | Some p =>
      if JsString.eqb p (lit "High")
      then lit "bg-red-100 text-red-800 border-red-400"
      else if JsString.eqb p (lit "Medium")
      then lit "bg-yellow-100 text-yellow-800 border-yellow-400"
      else if JsString.eqb p (lit "Low")
      then lit "bg-green-100 text-green-800 border-green-400"
      else lit "bg-gray-100 text-gray-800 border-gray-300"
  | None => lit "bg-gray-100 text-gray-800 border-gray-300"
  end.

(** [getFormColor(priority)] *)
Definition getFormColor (priority : jsstring) : jsstring :=
  if JsString.eqb priority (lit "High")
  then lit "border-red-500 focus:ring-red-300 bg-red-50"
  else if JsString.eqb priority (lit "Medium")
  then lit "border-yellow-500 focus:ring-yellow-300 bg-yellow-50"
  else if JsString.eqb priority (lit "Low")
  then lit "border-green-500 focus:ring-green-300 bg-green-50"
  else lit "border-gray-300 focus:ring-gray-200 bg-white".

(** [const selectedPriority = watch("priority") || "Medium"] *)
Definition selectedPriority (st : State) : jsstring :=
  match truthy_string (FormData.priority (form st)) with
  | Some p => p
  | None => lit "Medium"
  end.

(** The controls of the wizard form. *)
Inductive Control :=
| TitleInput
| PrioritySelect
| DueDateInput
| NoteInput
| TagsInput
| SubtasksInput
| RecurringSelect
| BackButton
| NextButton
| AddTaskButton.

(** The children of the [<form>], in document order: each block is there
    under its guard. *)
Definition wizard (st : State) : list Control :=
  (if step st =? 1 then [TitleInput; PrioritySelect] else [])
  ++ (if step st =? 2 then [DueDateInput; NoteInput] else [])
  ++ (if step st =? 3 then [TagsInput; SubtasksInput; RecurringSelect]
      else [])
  ++ (if 1 <? step st then [BackButton] else [])
  ++ (if step st <? 3 then [NextButton] else [])
  ++ (if step st =? 3 then [AddTaskButton] else []).

(** One [<li>] of the task list: its key, the colour classes, the checkbox,
    whether the title is struck through, the title and priority of the
    label, and the three optional lines (the creation line carries the
    timestamp it formats). *)
Record Item := {
  key : jsstring;
  colour : jsstring;
  checked : bool;
  struck : bool;
  label_title : jsstring;
  label_priority : option jsstring;
  due_line : option jsstring;
  note_line : option jsstring;
  created_line : option jsstring
}.

Definition item (task : Task.Task) : Item :=
  {| key := Task.id task;
     colour := getPriorityColor (Task.priority task);
     checked := Task.completed task;
     struck := if Task.completed task then true else false;
     label_title := Task.title task;
     label_priority := Task.priority task;
     due_line := truthy_string (Task.due_date task);
     note_line := truthy_string (Task.note task);
     created_line := truthy_string (Task.created_at task) |}.

(** The content of the [<ul>]. *)
Inductive TaskList :=
| NoTasksToShow
| Items (items : list Item).

Definition taskList (e : Engine) (st : State) : TaskList :=
  let shown := filteredTasks e (tasks st) (filter st) (sortBy st) in
  if (List.length shown =? 0)%nat then NoTasksToShow
  else Items (map item shown).

Section ItemHandlers.
Variable e : Engine.
Variable supabase : Service.Service.

(** The checkbox of the item at position [i]: [toggleTask(task)] with the
    task of the derived list. *)
Definition onChange (i : nat) (st : State) : State :=
  match nth_error (filteredTasks e (tasks st) (filter st) (sortBy st)) i with
  | Some task => run (toggleTask supabase task) st
  | None => st
  end.

(** The "Delete" button of the item at position [i]:
    [deleteTask(task.id)]. *)
Definition onDelete (i : nat) (st : State) : State :=
  match nth_error (filteredTasks e (tasks st) (filter st) (sortBy st)) i with
  | Some task => run (deleteTask supabase (Task.id task)) st
  | None => st
  end.
End ItemHandlers.

(** The two [<select>]s above the list. *)
Definition setFilter (f : Filter) (st : State) : State :=
  Page.mk (tasks st) f (sortBy st) (step st) (form st) (trace st).

Definition setSortBy (s : SortBy) (st : State) : State :=
  Page.mk (tasks st) (filter st) s (step st) (form st) (trace st).

End Render.

(** ** Loading the tasks *)

Module Loader.

Import Service Page.

(** What the effect of the page does to the outside. *)
Inductive Effect :=
| QuerySession
| Push (path : jsstring)
| SelectTasks (column : jsstring) (ascending : bool)
| LogError (label message : jsstring).

(** The [{ data, error }] pair of the select. *)
Record Selected := {
  rows : option (list Task.Task);
  failure : option jsstring
}.

(** What the service answers while the page loads. *)
Record Backend := {
  current_session : option Session;
  select_all : Selected
}.

(** [fetchTasks]: the state after it and what it did. *)
Definition fetchTasks (b : Backend) (st : State) : State * list Effect :=
  match current_session b with
  | None => (st, [QuerySession; Push (lit "/login")])
  | Some _ =>
      let r := select_all b in
      match failure r with
      | Some message =>
          (st, [QuerySession; SelectTasks (lit "created_at") false;
                LogError (lit "Error fetching tasks:") message])
      | None =>
          (snd (setTasks (fun _ => match rows r with
                                   | Some data => data
                                   | None => []
                                   end) st),
           [QuerySession; SelectTasks (lit "created_at") false])
      end
  end.

(** The listener given to [onAuthStateChange]. *)
Definition onAuthStateChange (session : option Session) : list Effect :=
  match session with
  | None => [Push (lit "/login")]
  | Some _ => []
  end.

End Loader.

(** ** The login page *)

Module Login.

(** The three state cells of [LoginPage]. *)
Record State := mk {
  email : jsstring;
  password : jsstring;
  error : jsstring
}.

Definition initial : State := mk [] [] [].

(** What the authentication service answers to a credential pair: the
    message of its error, if any. *)
Record Auth := {
  signUp : jsstring -> jsstring -> option jsstring;
  signInWithPassword : jsstring -> jsstring -> option jsstring
}.

Inductive Effect :=
| Alert (message : jsstring)
| Push (path : jsstring).

Definition setEmail (v : jsstring) (st : State) : State :=
  mk v (password st) (error st).

Definition setPassword (v : jsstring) (st : State) : State :=
  mk (email st) v (error st).

Definition setError (v : jsstring) (st : State) : State :=
  mk (email st) (password st) v.

Section Handlers.
Variable supabase : Auth.

Definition handleSignUp (st : State) : State * list Effect :=
  match signUp supabase (email st) (password st) with
  | Some message => (setError message st, [])
  | None => (st, [Alert (lit "Check your email for confirmation link!")])
  end.

Definition handleSignIn (st : State) : State * list Effect :=
  match signInWithPassword supabase (email st) (password st) with
  | Some message => (setError message st, [])
  | None => (st, [Push (lit "/tasks")])
  end.

(** What a user does on the page. *)
Inductive Action :=
| TypeEmail (v : jsstring)
| TypePassword (v : jsstring)
| ClickSignIn
| ClickSignUp.

Definition act (a : Action) (st : State) : State * list Effect :=
  match a with
  | TypeEmail v => (setEmail v st, [])
  | TypePassword v => (setPassword v st, [])
  | ClickSignIn => handleSignIn st
  | ClickSignUp => handleSignUp st
  end.

Fixpoint acts (l : list Action) (st : State) : State * list Effect :=
  match l with
  | [] => (st, [])
  | a :: l' =>
      let (st1, out1) := act a st in
      let (st2, out2) := acts l' st1 in
      (st2, out1 ++ out2)
  end.
End Handlers.

(** [{error && <p>...</p>}]: the text shown above the inputs. *)
Definition shown_error (st : State) : option jsstring :=
  match error st with
  | [] => None
  | c :: s => Some (c :: s)
  end.

End Login.

(** ** Vocabulary of the further properties *)

Module Orders.

(** [a] was not created before [b]: the order of sort mode "newest", a
    missing timestamp counting as the empty string. *)
Definition newest_le (a b : Task.Task) : Prop :=
  localeCompare (or_empty (Task.created_at b)) (or_empty (Task.created_at a))
  <= 0.

(** The task carries the timestamp [c] (the empty one when it has none). *)
Definition created_is (c : jsstring) (t : Task.Task) : bool :=
  JsString.eqb (or_empty (Task.created_at t)) c.

(** The task is due on [d]. *)
Definition due_is (d : jsstring) (t : Task.Task) : bool :=
  match truthy_string (Task.due_date t) with
  | Some x => JsString.eqb x d
  | None => false
  end.

Definition undated (t : Task.Task) : bool := negb (has_due_date t).

End Orders.

Import Orders.

(** ** Further inputs *)

Module Samples.

Import Service Page.
Local Open Scope string_scope.

(** A service with no session. *)
Definition signed_out : Service :=
  {| getSession := None;
     insert_row := fun _ => Build_Response None None;
     delete_row := fun _ => None;
     update_row := fun _ _ => Build_Response None None |}.

(** The row the service creates for the draft of [Examples.page]. *)
Definition created : Task.Task :=
  Task.mk (lit "9") (lit "Buy milk") None None (Some (lit "Medium")) false
          (Some (lit "2024-03-01")).

(** A page in filter mode "pending" and sort mode "priority". *)
Definition pending_page (tasks : list Task.Task) : State :=
  Page.mk tasks Pending Priority 1 FormData.empty [].

(** The service while the page loads: signed in, the select returns two
    rows, the later created first. *)
Definition loading : Loader.Backend :=
  {| Loader.current_session := Some Examples.session;
     Loader.select_all :=
       {| Loader.rows := Some [Examples.second_high; Examples.first_low];
          Loader.failure := None |} |}.

(** An authentication service that accepts every credential pair. *)
Definition welcoming : Login.Auth :=
  {| Login.signUp := fun _ _ => None;
     Login.signInWithPassword := fun _ _ => None |}.

(** A login page that shows an error. *)
Definition refused : Login.State :=
  Login.mk (lit "a@b.c") (lit "x") (lit "Invalid login credentials").

End Samples.

(** * Properties *)

(** ** String comparison *)

Lemma eqb_eq (a b : jsstring) : JsString.eqb a b = true <-> a = b.
Proof.
  unfold JsString.eqb. destruct (list_eq_dec N.eq_dec a b); split; congruence.
Qed.

Lemma eqb_refl (a : jsstring) : JsString.eqb a a = true.
Proof. apply eqb_eq. reflexivity. Qed.

Lemma code_unit_compare_trans (x y z : N) (c : comparison) :
  N.compare x y = c -> N.compare y z = c -> N.compare x z = c.
Proof.
  destruct c; intros H1 H2.
  - apply N.compare_eq_iff in H1, H2. apply N.compare_eq_iff. congruence.
  - rewrite N.compare_lt_iff in *. lia.
  - rewrite N.compare_gt_iff in *. lia.
Qed.

Lemma localeCompare_swap (a b : jsstring) :
  localeCompare b a = - localeCompare a b.
Proof.
  unfold localeCompare.
  rewrite (list_compare_antisym N.compare N.compare_eq_iff a b)
    by (intros; apply N.compare_antisym).
  destruct (list_compare N.compare a b); reflexivity.
Qed.

Lemma localeCompare_trans (a b c : jsstring) :
  localeCompare a b <= 0 -> localeCompare b c <= 0 -> localeCompare a c <= 0.
Proof.
  unfold localeCompare. intros Hab Hbc.
  destruct (list_compare N.compare a b) eqn:E1; try lia;
    destruct (list_compare N.compare b c) eqn:E2; try lia.
  - apply (list_compare_refl N.compare N.compare_eq_iff) in E1. subst b.
    rewrite E2. lia.
  - apply (list_compare_refl N.compare N.compare_eq_iff) in E1. subst b.
    rewrite E2. lia.
  - apply (list_compare_refl N.compare N.compare_eq_iff) in E2. subst c.
    rewrite E1. lia.
  - rewrite (list_compare_trans N.compare N.compare_eq_iff a b c
               code_unit_compare_trans N.compare_antisym E1 E2). lia.
Qed.

(** ** The sort *)

Section SortFacts.
Context {A : Type}.
Variable before : A -> A -> bool.

Lemma place_perm (x : A) (rp : list A) :
  Permutation (x :: rp) (place before x rp).
Proof.
  induction rp as [|y rp IH]; simpl; [reflexivity|].
  destruct (before x y); [|reflexivity].
  rewrite perm_swap. constructor. exact IH.
Qed.

Lemma insertion_perm (l rp : list A) :
  Permutation (rev rp ++ l) (insertion before rp l).
Proof.
  revert rp. induction l as [|x l IH]; intros rp; simpl.
  - rewrite app_nil_r. reflexivity.
  - rewrite <- IH, <- (place_perm x rp). simpl.
    rewrite <- app_assoc. reflexivity.
Qed.

(** Elements that never pass one another keep their order. *)
Section Stability.
Variable P : A -> bool.
Hypothesis no_pass :
  forall x y, P x = true -> P y = true -> before x y = false.

Lemma place_filter (x : A) (rp : list A) :
  List.filter P (place before x rp) = List.filter P (x :: rp).
Proof.
  induction rp as [|y rp IH]; [reflexivity|].
  simpl place. destruct (before x y) eqn:Hb; [|reflexivity].
  simpl in *. rewrite IH.
  destruct (P x) eqn:Hx, (P y) eqn:Hy; try reflexivity.
  rewrite (no_pass x y Hx Hy) in Hb. discriminate.
Qed.

Lemma insertion_filter (l rp : list A) :
  List.filter P (insertion before rp l)
  = List.filter P (rev rp ++ l).
Proof.
  revert rp. induction l as [|x l IH]; intros rp; simpl.
  - rewrite app_nil_r. reflexivity.
  - rewrite IH, !filter_app, !filter_rev, place_filter.
    simpl. destruct (P x); simpl; rewrite ?rev_unit, <- ?app_assoc;
      reflexivity.
Qed.
End Stability.

(** When the moves follow an order [R] on the elements in [D], the result
    is sorted by [R]. *)
Section Order.
Variable D : A -> Prop.
Variable R : A -> A -> Prop.
Hypothesis R_trans : forall x y z, R x y -> R y z -> R x z.
Hypothesis pass : forall x y, D x -> D y -> before x y = true -> R x y.
Hypothesis stop : forall x y, D x -> D y -> before x y = false -> R y x.

Lemma place_in (x y : A) (rp : list A) :
  In y (place before x rp) -> y = x \/ In y rp.
Proof.
  intros H. apply (Permutation_in _ (Permutation_sym (place_perm x rp))) in H.
  destruct H; auto.
Qed.

Lemma place_sorted (x : A) (rp : list A) :
  D x -> Forall D rp ->
  StronglySorted (fun a b => R b a) rp ->
  StronglySorted (fun a b => R b a) (place before x rp).
Proof.
  intros Hx. induction rp as [|y rp IH]; intros HD Hs; simpl.
  - repeat constructor.
  - inversion HD as [|? ? Hy HD']; subst.
    inversion Hs as [|? ? Hs' Hall]; subst.
    destruct (before x y) eqn:Hb.
    + constructor; [auto|].
      apply Forall_forall. intros z Hz.
      destruct (place_in _ _ _ Hz) as [->|Hz']; [auto|].
      rewrite Forall_forall in Hall. auto.
    + constructor; [exact Hs|].
      constructor; [auto|].
      apply Forall_forall. intros z Hz.
      rewrite Forall_forall in Hall. eauto.
Qed.

Lemma sorted_snoc (l : list A) (a : A) :
  StronglySorted R l -> Forall (fun y => R y a) l ->
  StronglySorted R (l ++ [a]).
Proof.
  induction 1 as [|b l Hs IH Hall]; intros Ha; simpl.
  - repeat constructor.
  - inversion Ha; subst. constructor; [auto|].
    apply Forall_app. split; [exact Hall|]. repeat constructor. assumption.
Qed.

Lemma sorted_rev (l : list A) :
  StronglySorted (fun a b => R b a) l -> StronglySorted R (rev l).
Proof.
  induction 1 as [|a l Hs IH Hall]; simpl; [constructor|].
  apply sorted_snoc; [exact IH|]. apply Forall_rev. exact Hall.
Qed.

Lemma insertion_sorted (l rp : list A) :
  Forall D rp -> Forall D l ->
  StronglySorted (fun a b => R b a) rp ->
  StronglySorted R (insertion before rp l).
Proof.
  revert rp. induction l as [|x l IH]; intros rp Hrp Hl Hs; simpl.
  - apply sorted_rev. exact Hs.
  - inversion Hl; subst. apply IH.
    + apply (Permutation_Forall (place_perm x rp)). constructor; assumption.
    + assumption.
    + apply place_sorted; assumption.
Qed.
End Order.
End SortFacts.

Lemma sort_perm {A} (e : Engine) (comparefn : A -> A -> jsnum) (l : list A) :
  Permutation l (sort e comparefn l).
Proof. exact (insertion_perm _ l []). Qed.

Lemma sorted_nth {A} (R : A -> A -> Prop) (l : list A) :
  StronglySorted R l ->
  forall i j a b,
    nth_error l i = Some a -> nth_error l j = Some b -> (i < j)%nat -> R a b.
Proof.
  induction 1 as [|x l Hs IH Hall]; intros i j a b Hi Hj Hlt.
  - destruct i; discriminate.
  - destruct j as [|j]; [lia|]. simpl in Hj.
    destruct i as [|i]; simpl in Hi.
    + injection Hi as <-. rewrite Forall_forall in Hall.
      apply Hall. eapply nth_error_In. exact Hj.
    + apply (IH i j); auto. lia.
Qed.

(** ** The derived list *)

Lemma filter_all {A} (l : list A) : List.filter (fun _ => true) l = l.
Proof. induction l; simpl; congruence. Qed.

Lemma normalised (tasks : list Task.Task) :
  map (fun t => Task.set_completed t (negb (negb (Task.completed t)))) tasks
  = tasks.
Proof.
  induction tasks as [|t tasks IH]; simpl; [reflexivity|].
  rewrite IH, negb_involutive. destruct t; reflexivity.
Qed.

(** The derived list is the sort of the tasks the filter keeps. *)
Lemma filteredTasks_sort (e : Engine) (tasks : list Task.Task)
    (f : Filter) (s : SortBy) :
  filteredTasks e tasks f s
  = sort e (comparator s) (List.filter (kept f) tasks).
Proof.
  unfold filteredTasks. rewrite normalised.
  destruct f, s; simpl; rewrite ?filter_all; reflexivity.
Qed.

Lemma filteredTasks_perm (e : Engine) (tasks : list Task.Task)
    (f : Filter) (s : SortBy) :
  Permutation (List.filter (kept f) tasks) (filteredTasks e tasks f s).
Proof. rewrite filteredTasks_sort. apply sort_perm. Qed.

(** On both engines the three sort modes put task 2 before task 1, and
    filter mode "pending" shows both. *)
Example two_tasks_every_mode (e : Engine) :
  shown_ids e [Examples.first_low; Examples.second_high] All Priority
  = [lit "2"; lit "1"]
  /\ shown_ids e [Examples.first_low; Examples.second_high] All Due
     = [lit "2"; lit "1"]
  /\ shown_ids e [Examples.first_low; Examples.second_high] All Newest
     = [lit "2"; lit "1"]
  /\ shown_ids e [Examples.first_low; Examples.second_high] Pending Newest
     = [lit "2"; lit "1"].
Proof. destruct e; repeat split; reflexivity. Qed.

(** ** Sort mode "due" *)

Lemma due_le_trans (a b c : Task.Task) :
  due_le a b -> due_le b c -> due_le a c.
Proof.
  unfold due_le.
  destruct (truthy_string (Task.due_date a)),
           (truthy_string (Task.due_date b)),
           (truthy_string (Task.due_date c)); try tauto.
  apply localeCompare_trans.
Qed.

Lemma due_pass (e : Engine) (x y : Task.Task) :
  moves_before e due_compare x y = true -> due_le x y.
Proof.
  unfold moves_before, sort_compare, due_compare, due_le.
  destruct e;
    destruct (truthy_string (Task.due_date x)) as [dx|],
             (truthy_string (Task.due_date y)) as [dy|];
    rewrite ?Z.ltb_lt; try lia; try tauto.
  rewrite (localeCompare_swap dx dy). lia.
Qed.

Lemma due_stop (e : Engine) (x y : Task.Task) :
  moves_before e due_compare x y = false -> due_le y x.
Proof.
  unfold moves_before, sort_compare, due_compare, due_le.
  destruct e;
    destruct (truthy_string (Task.due_date x)) as [dx|],
             (truthy_string (Task.due_date y)) as [dy|];
    rewrite ?Z.ltb_ge; try lia; try tauto.
  rewrite (localeCompare_swap dx dy). lia.
Qed.

(** On every engine, sort mode "due" lists the tasks in ascending order of
    their due dates, and every task without a due date after every task with
    one. *)
Lemma due_sorted (e : Engine) (tasks : list Task.Task) (f : Filter) :
  StronglySorted due_le (filteredTasks e tasks f Due).
Proof.
  rewrite filteredTasks_sort. unfold sort.
  apply (insertion_sorted _ (fun _ => True) due_le).
  - exact due_le_trans.
  - intros x y _ _. apply due_pass.
  - intros x y _ _. apply due_stop.
  - constructor.
  - apply Forall_forall. trivial.
  - constructor.
Qed.

Lemma due_dated_first (e : Engine) (tasks : list Task.Task) (f : Filter)
    (i j : nat) (a b : Task.Task) :
  nth_error (filteredTasks e tasks f Due) i = Some a ->
  nth_error (filteredTasks e tasks f Due) j = Some b ->
  has_due_date a = true -> has_due_date b = false -> (i < j)%nat.
Proof.
  intros Hi Hj Ha Hb.
  destruct (Nat.lt_trichotomy i j) as [Hlt|[Heq|Hgt]]; [exact Hlt| |].
  - subst j. congruence.
  - pose proof (sorted_nth _ _ (due_sorted e tasks f) j i b a Hj Hi Hgt) as H.
    unfold due_le, has_due_date in *.
    destruct (truthy_string (Task.due_date a)),
             (truthy_string (Task.due_date b)); try discriminate; tauto.
Qed.

(** On an engine that asks [comparefn(later, earlier)], the tasks without a
    due date keep their order. *)
Lemma due_undated_stable (tasks : list Task.Task) (f : Filter) :
  List.filter (fun t => negb (has_due_date t))
              (filteredTasks LaterFirst tasks f Due)
  = List.filter (fun t => negb (has_due_date t)) (List.filter (kept f) tasks).
Proof.
  rewrite filteredTasks_sort. unfold sort.
  rewrite insertion_filter; [reflexivity|].
  intros x y Hx _.
  unfold moves_before, sort_compare, comparator, due_compare.
  unfold has_due_date in Hx.
  destruct (truthy_string (Task.due_date x)); [discriminate|reflexivity].
Qed.

(** C1: sort mode "due" on two tasks that both lack a due date.  The
    comparator answers 1 whichever of the two comes first, so it tells the
    sort that each of them belongs after the other; an engine that asks
    [comparefn(earlier, later)] then exchanges the two tasks, while an engine
    that asks [comparefn(later, earlier)] leaves them in place.  Their
    relative order is therefore not kept on every engine. *)
Theorem C1_due_undated_pair :
  due_compare Examples.undated1 Examples.undated2 = Num 1
  /\ due_compare Examples.undated2 Examples.undated1 = Num 1
  /\ filteredTasks EarlierFirst [Examples.undated1; Examples.undated2] All Due
     = [Examples.undated2; Examples.undated1]
  /\ filteredTasks LaterFirst [Examples.undated1; Examples.undated2] All Due
     = [Examples.undated1; Examples.undated2].
Proof. repeat split; reflexivity. Qed.


(** ** Sort mode "priority" *)

Lemma rank_value_plain (t : Task.Task) :
  plain_priority t = true -> rank_value t = Number (rank t).
Proof.
  unfold plain_priority, rank_value, rank, priorityOrder.
  intros H. apply negb_true_iff in H. rewrite H.
  destruct (Task.priority t) as [p|]; simpl property_key; [|reflexivity].
  destruct (JsString.eqb p (lit "High")); [reflexivity|].
  destruct (JsString.eqb p (lit "Medium")); [reflexivity|].
  destruct (JsString.eqb p (lit "Low")); reflexivity.
Qed.

Lemma priority_moves (e : Engine) (x y : Task.Task) :
  plain_priority x = true -> plain_priority y = true ->
  moves_before e priority_compare x y = (rank x <? rank y).
Proof.
  intros Hx Hy. unfold moves_before, sort_compare, priority_compare.
  rewrite (rank_value_plain x Hx), (rank_value_plain y Hy). simpl.
  destruct e; destruct (rank x <? rank y) eqn:E;
    rewrite ?Z.ltb_lt, ?Z.ltb_ge in *; lia.
Qed.

Lemma priority_sorted (e : Engine) (tasks : list Task.Task) (f : Filter) :
  Forall (fun t => plain_priority t = true) tasks ->
  StronglySorted (fun a b => rank a <= rank b)
                 (filteredTasks e tasks f Priority).
Proof.
  intros Hplain. rewrite filteredTasks_sort. unfold sort.
  apply (insertion_sorted _ (fun t => plain_priority t = true)).
  - intros x y z. lia.
  - intros x y Hx Hy. simpl comparator. rewrite (priority_moves e x y Hx Hy).
    rewrite Z.ltb_lt. lia.
  - intros x y Hx Hy. simpl comparator. rewrite (priority_moves e x y Hx Hy).
    rewrite Z.ltb_ge. lia.
  - constructor.
  - rewrite Forall_forall in *. intros t Ht.
    apply filter_In in Ht. apply Hplain, Ht.
  - constructor.
Qed.

Lemma priority_stable (e : Engine) (tasks : list Task.Task) (f : Filter) :
  Forall (fun t => plain_priority t = true) tasks ->
  rank_stable (List.filter (kept f) tasks) (filteredTasks e tasks f Priority).
Proof.
  intros Hplain r.
  assert (Hin : Forall (fun t => plain_priority t = true)
                       (List.filter (kept f) tasks)).
  { rewrite Forall_forall in *. intros t Ht.
    apply filter_In in Ht. apply Hplain, Ht. }
  assert (Hout : Forall (fun t => plain_priority t = true)
                        (filteredTasks e tasks f Priority)).
  { apply (Permutation_Forall (filteredTasks_perm e tasks f Priority) Hin). }
  rewrite Forall_forall in Hin, Hout.
  rewrite (filter_ext_in (fun t => rank t =? r)
             (fun t => plain_priority t && (rank t =? r))%bool
             (filteredTasks e tasks f Priority))
    by (intros t Ht; rewrite (Hout t Ht); reflexivity).
  rewrite (filter_ext_in (fun t => rank t =? r)
             (fun t => plain_priority t && (rank t =? r))%bool
             (List.filter (kept f) tasks))
    by (intros t Ht; rewrite (Hin t Ht); reflexivity).
  rewrite filteredTasks_sort. unfold sort.
  rewrite insertion_filter; [reflexivity|].
  intros x y Hx Hy.
  apply andb_true_iff in Hx, Hy. destruct Hx as [Hx Hrx], Hy as [Hy Hry].
  simpl comparator. rewrite (priority_moves e x y Hx Hy).
  apply Z.eqb_eq in Hrx, Hry. apply Z.ltb_ge. lia.
Qed.

(** C2 (as the claim states it, refuted): a task whose priority is the name
    of a property that every object inherits, here "constructor", does not
    rank with Low: the comparator yields NaN against every other task, the
    sort takes that for a tie, and the High task that follows stays behind
    the Low task that precedes. *)
Lemma C2_counterexample :
  filteredTasks LaterFirst [Examples.low; Examples.odd; Examples.high]
                All Priority
  = [Examples.low; Examples.odd; Examples.high]
  /\ filteredTasks EarlierFirst [Examples.low; Examples.odd; Examples.high]
                   All Priority
     = [Examples.low; Examples.odd; Examples.high]
  /\ priority_compare Examples.odd Examples.low = NaN
  /\ rank Examples.high = 1 /\ rank Examples.low = 3
  /\ ~ ranks_in_order
         (filteredTasks LaterFirst [Examples.low; Examples.odd; Examples.high]
                        All Priority)
  /\ ~ ranks_in_order
         (filteredTasks EarlierFirst
                        [Examples.low; Examples.odd; Examples.high]
                        All Priority).
Proof.
  repeat split; try reflexivity.
  - intros H.
    specialize (H 2%nat 0%nat Examples.high Examples.low eq_refl eq_refl).
    assert (rank Examples.high < rank Examples.low) as Hr by reflexivity.
    specialize (H Hr). lia.
  - intros H.
    specialize (H 2%nat 0%nat Examples.high Examples.low eq_refl eq_refl).
    assert (rank Examples.high < rank Examples.low) as Hr by reflexivity.
    specialize (H Hr). lia.
Qed.

(** C2 (amended): on every engine and for every task list whose priorities
    are Low, Medium, High, missing, or any other string that is not the name
    of a property every object inherits, sort mode "priority" is total and
    stable: the result holds the same tasks, a task of lower rank (High 1,
    Medium 2, Low and everything else 3) stands before every task of higher
    rank, and the tasks of one rank keep their order. *)
Theorem C2_priority_sort (e : Engine) (tasks : list Task.Task) (f : Filter) :
  Forall (fun t => plain_priority t = true) tasks ->
  Permutation (List.filter (kept f) tasks) (filteredTasks e tasks f Priority)
  /\ ranks_in_order (filteredTasks e tasks f Priority)
  /\ rank_stable (List.filter (kept f) tasks)
                 (filteredTasks e tasks f Priority).
Proof.
  intros Hplain. split; [apply filteredTasks_perm|]. split.
  - intros i j a b Hi Hj Hr.
    destruct (Nat.lt_trichotomy i j) as [Hlt|[Heq|Hgt]]; [exact Hlt| |].
    + subst j. rewrite Hi in Hj. injection Hj as ->. lia.
    + pose proof (sorted_nth _ _ (priority_sorted e tasks f Hplain)
                             j i b a Hj Hi Hgt). simpl in *. lia.
  - apply priority_stable. exact Hplain.
Qed.

Lemma C2_priority_sort_witness :
  let tasks := [Examples.low; Examples.unranked; Examples.high;
                Examples.undated1] in
  Forall (fun t => plain_priority t = true) tasks
  /\ filteredTasks LaterFirst tasks All Priority
     = [Examples.high; Examples.undated1; Examples.low; Examples.unranked]
  /\ ranks_in_order (filteredTasks LaterFirst tasks All Priority).
Proof.
  assert (H : Forall (fun t => plain_priority t = true)
                [Examples.low; Examples.unranked; Examples.high;
                 Examples.undated1])
    by (repeat constructor).
  split; [exact H|]. split; [reflexivity|].
  exact (proj1 (proj2 (C2_priority_sort LaterFirst _ All H))).
Defined.


(** ** Filter modes *)

Lemma shown_ids_in (e : Engine) (tasks : list Task.Task) (f : Filter)
    (s : SortBy) (i : jsstring) :
  In i (shown_ids e tasks f s)
  <-> exists t, In t tasks /\ kept f t = true /\ Task.id t = i.
Proof.
  unfold shown_ids. rewrite in_map_iff. split.
  - intros (t & Hid & Ht).
    apply (Permutation_in _ (Permutation_sym (filteredTasks_perm e tasks f s)))
      in Ht.
    apply filter_In in Ht. exists t. tauto.
  - intros (t & Ht & Hk & Hid). exists t. split; [exact Hid|].
    apply (Permutation_in _ (filteredTasks_perm e tasks f s)).
    apply filter_In. tauto.
Qed.

Lemma same_id_same_task (tasks : list Task.Task) (a b : Task.Task) :
  NoDup (map Task.id tasks) -> In a tasks -> In b tasks ->
  Task.id a = Task.id b -> a = b.
Proof.
  induction tasks as [|t tasks IH]; simpl; intros Hnd Ha Hb Hid; [tauto|].
  inversion Hnd as [|? ? Hnotin Hnd']; subst.
  destruct Ha as [->|Ha], Hb as [->|Hb]; auto.
  - exfalso. apply Hnotin. rewrite Hid. apply in_map. exact Hb.
  - exfalso. apply Hnotin. rewrite <- Hid. apply in_map. exact Ha.
Qed.

(** C3 (as the claim states it, refuted): when two rows carry the same
    identifier, one completed and one not, that identifier is shown by
    filter mode "completed" and by filter mode "pending". *)
Lemma C3_counterexample :
  In (lit "1")
     (shown_ids LaterFirst [Examples.twin_done; Examples.twin_open]
                Completed Newest)
  /\ In (lit "1")
        (shown_ids LaterFirst [Examples.twin_done; Examples.twin_open]
                   Pending Newest)
  /\ ~ disjoint
         (shown_ids LaterFirst [Examples.twin_done; Examples.twin_open]
                    Completed Newest)
         (shown_ids LaterFirst [Examples.twin_done; Examples.twin_open]
                    Pending Newest).
Proof.
  assert (Hc : In (lit "1")
     (shown_ids LaterFirst [Examples.twin_done; Examples.twin_open]
                Completed Newest)) by (left; reflexivity).
  assert (Hp : In (lit "1")
     (shown_ids LaterFirst [Examples.twin_done; Examples.twin_open]
                Pending Newest)) by (left; reflexivity).
  repeat split; [exact Hc|exact Hp|].
  intros H. exact (H _ Hc Hp).
Qed.

(** C3 (amended): for every task list with pairwise-distinct identifiers, on
    every engine and in every sort mode, the identifiers shown by filter mode
    "completed" and those shown by filter mode "pending" are disjoint, and an
    identifier is shown by filter mode "all" exactly when one of the two
    shows it. *)
Theorem C3_filter_partition (e : Engine) (tasks : list Task.Task)
    (s : SortBy) :
  NoDup (map Task.id tasks) ->
  disjoint (shown_ids e tasks Completed s) (shown_ids e tasks Pending s)
  /\ forall i,
       In i (shown_ids e tasks All s)
       <-> In i (shown_ids e tasks Completed s)
           \/ In i (shown_ids e tasks Pending s).
Proof.
  intros Hnd. split.
  - intros i Hc Hp.
    apply shown_ids_in in Hc, Hp.
    destruct Hc as (a & Ha & Hka & Hia), Hp as (b & Hb & Hkb & Hib).
    assert (a = b) by (apply (same_id_same_task tasks); congruence).
    subst b. simpl in Hka, Hkb. rewrite Hka in Hkb. discriminate.
  - intros i. rewrite !shown_ids_in. split.
    + intros (t & Ht & _ & Hid).
      destruct (Task.completed t) eqn:Hc; [left|right];
        exists t; simpl; rewrite Hc; auto.
    + intros [(t & Ht & _ & Hid)|(t & Ht & _ & Hid)]; exists t; simpl; auto.
Qed.

Lemma C3_filter_partition_witness :
  let tasks := [Examples.low; Examples.unranked; Examples.high] in
  NoDup (map Task.id tasks)
  /\ shown_ids LaterFirst tasks Completed Priority = [lit "m"]
  /\ shown_ids LaterFirst tasks Pending Priority = [lit "h"; lit "l"]
  /\ disjoint (shown_ids LaterFirst tasks Completed Priority)
              (shown_ids LaterFirst tasks Pending Priority).
Proof.
  assert (H : NoDup (map Task.id
                       [Examples.low; Examples.unranked; Examples.high])).
  { repeat constructor; simpl; intros H;
      repeat (destruct H as [H|H]; [discriminate H|]); exact H. }
  split; [exact H|]. split; [reflexivity|]. split; [reflexivity|].
  exact (proj1 (C3_filter_partition LaterFirst _ Priority H)).
Defined.


(** ** Trimming *)

Lemma blank_trim_start (s : jsstring) : blank s = true -> trim_start s = [].
Proof.
  induction s as [|c s IH]; simpl; [reflexivity|].
  destruct (is_whitespace c); [exact IH|discriminate].
Qed.

Lemma blank_trim (s : jsstring) : blank s = true -> trim s = [].
Proof.
  intros H. unfold trim, trim_end. rewrite (blank_trim_start s H).
  reflexivity.
Qed.

Lemma not_blank_trim_start (s : jsstring) :
  blank s = false -> blank (trim_start s) = false.
Proof.
  induction s as [|c s IH]; simpl; [discriminate|].
  destruct (is_whitespace c) eqn:Hc; simpl; [exact IH|].
  intros _. rewrite Hc. reflexivity.
Qed.

Lemma blank_rev (s : jsstring) : blank (rev s) = blank s.
Proof.
  unfold blank. induction s as [|c s IH]; simpl; [reflexivity|].
  rewrite forallb_app, IH. simpl. rewrite andb_true_r. apply andb_comm.
Qed.

Lemma not_blank_trim (s : jsstring) :
  blank s = false -> truthy (trim s) = true.
Proof.
  intros H. unfold trim, trim_end.
  assert (Hb : blank (rev (trim_start (rev (trim_start s)))) = false).
  { rewrite blank_rev. apply not_blank_trim_start.
    rewrite blank_rev. apply not_blank_trim_start. exact H. }
  destruct (rev (trim_start (rev (trim_start s)))); [discriminate|reflexivity].
Qed.

(** ** Handlers *)

Lemma emitted_app (h : Page.Handler unit) (st : Page.State)
    (evs : list Service.Event) :
  Page.trace (Page.run h st) = Page.trace st ++ evs ->
  emitted h st = evs.
Proof.
  unfold emitted. intros ->.
  induction (Page.trace st) as [|ev l IH]; simpl; [reflexivity|exact IH].
Qed.

(** What [addTask] adds to the trace. *)
Lemma addTask_emitted (supabase : Service.Service)
    (data : FormData.FormData) (st : Page.State) :
  emitted (Page.addTask supabase data) st
  = if negb (truthy (trim (FormData.title data))) then []
    else
      Service.GetSession ::
      match Service.getSession supabase with
      | None => []
      | Some session =>
          Service.Insert (Page.new_row session data) ::
          match Service.error
                  (Service.insert_row supabase (Page.new_row session data))
          with
          | Some message =>
              [Service.ConsoleError (lit "Error adding task:") message]
          | None => []
          end
      end.
Proof.
  apply emitted_app. unfold Page.run, Page.addTask.
  destruct (negb (truthy (trim (FormData.title data)))); simpl.
  - rewrite app_nil_r. reflexivity.
  - destruct (Service.getSession supabase) as [session|]; simpl;
      [|reflexivity].
    destruct (Service.error _); simpl.
    + rewrite <- !app_assoc. reflexivity.
    + destruct (Service.data _); simpl; rewrite <- !app_assoc; reflexivity.
Qed.

(** C4: when the title is empty or holds only white space, [addTask] returns
    at once: the page state is the one before (same task list, same form
    values, same wizard step) and nothing is added to the trace, so no
    request is issued. *)
Theorem C4_blank_title_aborts (supabase : Service.Service)
    (data : FormData.FormData) (st : Page.State) :
  blank (FormData.title data) = true ->
  Page.run (Page.addTask supabase data) st = st
  /\ emitted (Page.addTask supabase data) st = [].
Proof.
  intros H. rewrite addTask_emitted.
  unfold Page.run, Page.addTask. rewrite (blank_trim _ H). simpl. auto.
Qed.

Lemma C4_blank_title_aborts_witness :
  blank (FormData.title Examples.blank_draft) = true
  /\ Page.run (Page.addTask (Examples.serving Examples.low)
                            Examples.blank_draft)
              (Examples.page [Examples.high])
     = Examples.page [Examples.high].
Proof.
  split; [reflexivity|].
  exact (proj1 (C4_blank_title_aborts (Examples.serving Examples.low)
                  Examples.blank_draft (Examples.page [Examples.high])
                  eq_refl)).
Defined.


Lemma deleteTask_emitted (supabase : Service.Service) (id : jsstring)
    (st : Page.State) :
  emitted (Page.deleteTask supabase id) st
  = Service.Delete id ::
    match Service.delete_row supabase id with
    | Some message =>
        [Service.ConsoleError (lit "Error deleting task:") message]
    | None => []
    end.
Proof.
  apply emitted_app. unfold Page.run, Page.deleteTask.
  destruct (Service.delete_row supabase id); simpl;
    rewrite <- ?app_assoc; reflexivity.
Qed.

Lemma toggleTask_emitted (supabase : Service.Service) (task : Task.Task)
    (st : Page.State) :
  emitted (Page.toggleTask supabase task) st
  = Service.Update (Task.id task) (negb (Task.completed task)) ::
    match Service.error
            (Service.update_row supabase (Task.id task)
                                (negb (Task.completed task)))
    with
    | Some message =>
        [Service.ConsoleError (lit "Error toggling task:") message]
    | None => []
    end.
Proof.
  apply emitted_app. unfold Page.run, Page.toggleTask. simpl.
  destruct (Service.error _); simpl; [rewrite <- app_assoc; reflexivity|].
  destruct (Service.data _); reflexivity.
Qed.

Lemma addTask_failure (supabase : Service.Service)
    (data : FormData.FormData) (st : Page.State) :
  (forall row, Service.error (Service.insert_row supabase row) <> None) ->
  same_page st (Page.run (Page.addTask supabase data) st).
Proof.
  intros Hins. unfold same_page, Page.run, Page.addTask.
  destruct (negb (truthy (trim (FormData.title data)))); simpl; [tauto|].
  destruct (Service.getSession supabase) as [session|]; simpl; [|tauto].
  specialize (Hins (Page.new_row session data)).
  destruct (Service.error _); simpl; [tauto|congruence].
Qed.

Lemma toggleTask_failure (supabase : Service.Service) (task : Task.Task)
    (st : Page.State) :
  Service.error (Service.update_row supabase (Task.id task)
                                    (negb (Task.completed task))) <> None ->
  same_page st (Page.run (Page.toggleTask supabase task) st).
Proof.
  intros Hupd. unfold same_page, Page.run, Page.toggleTask. simpl.
  destruct (Service.error _); simpl; [tauto|congruence].
Qed.

Lemma deleteTask_failure (supabase : Service.Service) (id : jsstring)
    (st : Page.State) :
  Service.delete_row supabase id <> None ->
  same_page st (Page.run (Page.deleteTask supabase id) st).
Proof.
  intros Hdel. unfold same_page, Page.run, Page.deleteTask. simpl.
  destruct (Service.delete_row supabase id); simpl; [tauto|congruence].
Qed.

(** C5: when the service answers with an error, [addTask], [toggleTask] and
    [deleteTask] leave the task list as it was, and so the form values, the
    wizard step and the rest of the page state; the handler ends normally,
    and what it adds to the trace is its requests followed by one console
    line that carries the error message. *)
Theorem C5_failure_changes_nothing (supabase : Service.Service)
    (st : Page.State) (data : FormData.FormData) (task : Task.Task)
    (id : jsstring) :
  (forall row, Service.error (Service.insert_row supabase row) <> None) ->
  Service.error (Service.update_row supabase (Task.id task)
                                    (negb (Task.completed task))) <> None ->
  Service.delete_row supabase id <> None ->
  (same_page st (Page.run (Page.addTask supabase data) st)
   /\ (emitted (Page.addTask supabase data) st = []
       \/ emitted (Page.addTask supabase data) st = [Service.GetSession]
       \/ exists session message,
            emitted (Page.addTask supabase data) st
            = [Service.GetSession;
               Service.Insert (Page.new_row session data);
               Service.ConsoleError (lit "Error adding task:") message]))
  /\ (same_page st (Page.run (Page.toggleTask supabase task) st)
      /\ exists message,
           emitted (Page.toggleTask supabase task) st
           = [Service.Update (Task.id task) (negb (Task.completed task));
              Service.ConsoleError (lit "Error toggling task:") message])
  /\ (same_page st (Page.run (Page.deleteTask supabase id) st)
      /\ exists message,
           emitted (Page.deleteTask supabase id) st
           = [Service.Delete id;
              Service.ConsoleError (lit "Error deleting task:") message]).
Proof.
  intros Hins Hupd Hdel. split; [|split]; split.
  - apply addTask_failure. exact Hins.
  - rewrite addTask_emitted.
    destruct (negb (truthy (trim (FormData.title data)))); [auto|].
    destruct (Service.getSession supabase) as [session|]; [|auto].
    specialize (Hins (Page.new_row session data)).
    destruct (Service.error _) as [message|]; [|congruence].
    right. right. exists session, message. reflexivity.
  - apply toggleTask_failure. exact Hupd.
  - rewrite toggleTask_emitted.
    destruct (Service.error _) as [message|]; [|congruence].
    exists message. reflexivity.
  - apply deleteTask_failure. exact Hdel.
  - rewrite deleteTask_emitted.
    destruct (Service.delete_row supabase id) as [message|]; [|congruence].
    exists message. reflexivity.
Qed.

Lemma C5_failure_changes_nothing_witness :
  let st := Examples.page [Examples.high; Examples.low] in
  Service.delete_row Examples.failing (lit "h") <> None
  /\ Page.tasks (Page.run (Page.deleteTask Examples.failing (lit "h")) st)
     = [Examples.high; Examples.low]
  /\ same_page st (Page.run (Page.addTask Examples.failing
                                          (Examples.draft "Buy milk")) st)
  /\ same_page st (Page.run (Page.toggleTask Examples.failing Examples.high)
                            st).
Proof.
  assert (Hins : forall row,
             Service.error (Service.insert_row Examples.failing row) <> None)
    by (intros row; discriminate).
  assert (Hupd : Service.error
             (Service.update_row Examples.failing (Task.id Examples.high)
                (negb (Task.completed Examples.high))) <> None)
    by discriminate.
  assert (Hdel : Service.delete_row Examples.failing (lit "h") <> None)
    by discriminate.
  pose proof (C5_failure_changes_nothing Examples.failing
                (Examples.page [Examples.high; Examples.low])
                (Examples.draft "Buy milk") Examples.high (lit "h")
                Hins Hupd Hdel) as [[Hadd _] [[Htoggle _] [Hdelete _]]].
  split; [exact Hdel|]. split; [exact (proj1 Hdelete)|].
  split; [exact Hadd|exact Htoggle].
Defined.


(** ** Deleting *)

Lemma filter_keeps_all {A} (p : A -> bool) (l : list A) :
  (forall x, In x l -> p x = true) -> List.filter p l = l.
Proof.
  induction l as [|a l IH]; simpl; intros H; [reflexivity|].
  rewrite (H a) by auto. rewrite IH by auto. reflexivity.
Qed.

Lemma deleteTask_success (supabase : Service.Service) (id : jsstring)
    (st : Page.State) :
  Service.delete_row supabase id = None ->
  Page.tasks (Page.run (Page.deleteTask supabase id) st)
  = List.filter (fun task => negb (JsString.eqb (Task.id task) id))
                (Page.tasks st).
Proof.
  intros H. unfold Page.run, Page.deleteTask. simpl. rewrite H. reflexivity.
Qed.

(** C6: on a task list with pairwise-distinct identifiers that holds a task
    with identifier [id], a [deleteTask id] that the service accepts takes
    exactly that entry out: the list was [before ++ t :: after] with [t] the
    task of that identifier, and it becomes [before ++ after]. *)
Theorem C6_delete_removes_one (supabase : Service.Service) (id : jsstring)
    (st : Page.State) :
  Service.delete_row supabase id = None ->
  NoDup (map Task.id (Page.tasks st)) ->
  In id (map Task.id (Page.tasks st)) ->
  exists before t after,
    Page.tasks st = before ++ t :: after
    /\ Task.id t = id
    /\ Page.tasks (Page.run (Page.deleteTask supabase id) st)
       = before ++ after.
Proof.
  intros Hok Hnd Hin. rewrite (deleteTask_success _ _ _ Hok).
  apply in_map_iff in Hin. destruct Hin as (t & Hid & Ht).
  apply in_split in Ht. destruct Ht as (before & after & Heq).
  exists before, t, after. rewrite Heq in *. repeat split; [exact Hid|].
  rewrite map_app in Hnd. simpl in Hnd.
  apply NoDup_remove_2 in Hnd. rewrite <- map_app in Hnd.
  assert (Hother : forall x, In x (before ++ after) ->
                     negb (JsString.eqb (Task.id x) id) = true).
  { intros x Hx. apply negb_true_iff.
    destruct (JsString.eqb (Task.id x) id) eqn:E; [|reflexivity].
    apply eqb_eq in E. exfalso. apply Hnd.
    rewrite Hid, <- E. apply in_map. exact Hx. }
  rewrite filter_app. simpl. rewrite Hid, eqb_refl. simpl.
  rewrite <- filter_app. apply filter_keeps_all. exact Hother.
Qed.

Lemma C6_delete_removes_one_witness :
  let st := Examples.page [Examples.high; Examples.low; Examples.unranked] in
  Service.delete_row (Examples.serving Examples.low) (lit "l") = None
  /\ NoDup (map Task.id (Page.tasks st))
  /\ In (lit "l") (map Task.id (Page.tasks st))
  /\ Page.tasks (Page.run (Page.deleteTask (Examples.serving Examples.low)
                                           (lit "l")) st)
     = [Examples.high; Examples.unranked]
  /\ exists before t after,
       Page.tasks st = before ++ t :: after
       /\ Task.id t = lit "l"
       /\ Page.tasks (Page.run (Page.deleteTask (Examples.serving Examples.low)
                                                (lit "l")) st)
          = before ++ after.
Proof.
  assert (Hnd : NoDup (map Task.id
            [Examples.high; Examples.low; Examples.unranked])).
  { repeat constructor; simpl; intros H;
      repeat (destruct H as [H|H]; [discriminate H|]); exact H. }
  assert (Hin : In (lit "l") (map Task.id
            [Examples.high; Examples.low; Examples.unranked]))
    by (right; left; reflexivity).
  split; [reflexivity|]. split; [exact Hnd|]. split; [exact Hin|].
  split; [reflexivity|].
  exact (C6_delete_removes_one (Examples.serving Examples.low) (lit "l")
           (Examples.page [Examples.high; Examples.low; Examples.unranked])
           eq_refl Hnd Hin).
Defined.

(** ** Toggling *)

Lemma set_completed_same (t : Task.Task) :
  Task.set_completed t (Task.completed t) = t.
Proof. destruct t; reflexivity. Qed.

Lemma toggleTask_success (supabase : Service.Service)
    (task updatedTask : Task.Task) (st : Page.State) :
  Service.update_row supabase (Task.id task) (negb (Task.completed task))
  = Service.Build_Response (Some updatedTask) None ->
  Page.tasks (Page.run (Page.toggleTask supabase task) st)
  = map (fun t => if JsString.eqb (Task.id t) (Task.id updatedTask)
                  then updatedTask else t)
        (Page.tasks st).
Proof.
  intros H. unfold Page.run, Page.toggleTask. simpl. rewrite H. reflexivity.
Qed.

(** The task list after [toggleTask t] and then [toggleTask] of the task that
    replaced [t], on a service that applies the updates: every entry with the
    identifier of [t] holds [t], every other entry is untouched. *)
Lemma toggle_twice_tasks (supabase : Service.Service) (st : Page.State)
    (t : Task.Task) :
  applies_update supabase t ->
  let t1 := Task.set_completed t (negb (Task.completed t)) in
  let st1 := Page.run (Page.toggleTask supabase t) st in
  Page.tasks st1
  = map (fun u => if JsString.eqb (Task.id u) (Task.id t) then t1 else u)
        (Page.tasks st)
  /\ Page.tasks (Page.run (Page.toggleTask supabase t1) st1)
     = map (fun u => if JsString.eqb (Task.id u) (Task.id t) then t else u)
           (Page.tasks st).
Proof.
  intros Happ t1 st1.
  assert (H1 : Page.tasks st1
    = map (fun u => if JsString.eqb (Task.id u) (Task.id t) then t1 else u)
          (Page.tasks st)).
  { unfold st1. rewrite (toggleTask_success supabase t t1); [reflexivity|].
    apply Happ. }
  split; [exact H1|].
  rewrite (toggleTask_success supabase t1 t).
  - rewrite H1, map_map. apply map_ext. intros u. simpl.
    destruct (JsString.eqb (Task.id u) (Task.id t)) eqn:E; simpl.
    + rewrite eqb_refl. reflexivity.
    + rewrite E. reflexivity.
  - unfold t1. simpl. rewrite (Happ (negb (negb (Task.completed t)))).
    rewrite negb_involutive, set_completed_same. reflexivity.
Qed.

(** C7: on a service that applies each requested update to the row of the
    task and returns it, toggling a task of the list and then toggling the
    task that took its place puts the original task back at its position:
    same completion flag, same identifier, same other attributes.  After the
    first toggle the position holds the task with the flag negated; entries
    with another identifier are never touched, and on a list with
    pairwise-distinct identifiers the whole list is the one before. *)
Theorem C7_toggle_twice (supabase : Service.Service) (st : Page.State)
    (t : Task.Task) (i : nat) :
  nth_error (Page.tasks st) i = Some t ->
  applies_update supabase t ->
  let t1 := Task.set_completed t (negb (Task.completed t)) in
  let st1 := Page.run (Page.toggleTask supabase t) st in
  let st2 := Page.run (Page.toggleTask supabase t1) st1 in
  nth_error (Page.tasks st1) i = Some t1
  /\ nth_error (Page.tasks st2) i = Some t
  /\ (forall j u,
        nth_error (Page.tasks st) j = Some u -> Task.id u <> Task.id t ->
        nth_error (Page.tasks st2) j = Some u)
  /\ (NoDup (map Task.id (Page.tasks st)) -> Page.tasks st2 = Page.tasks st).
Proof.
  intros Hi Happ t1 st1 st2.
  destruct (toggle_twice_tasks supabase st t Happ) as [H1 H2].
  fold t1 st1 in H1, H2. fold st2 in H2.
  rewrite H1, H2. repeat split.
  - rewrite nth_error_map, Hi. simpl. rewrite eqb_refl. reflexivity.
  - rewrite nth_error_map, Hi. simpl. rewrite eqb_refl. reflexivity.
  - intros j u Hj Hne. rewrite nth_error_map, Hj. simpl.
    destruct (JsString.eqb (Task.id u) (Task.id t)) eqn:E; [|reflexivity].
    apply eqb_eq in E. contradiction.
  - intros Hnd. rewrite <- (map_id (Page.tasks st)) at 2.
    apply map_ext_in. intros u Hu.
    destruct (JsString.eqb (Task.id u) (Task.id t)) eqn:E; [|reflexivity].
    apply eqb_eq in E. symmetry.
    apply (same_id_same_task (Page.tasks st)); auto.
    eapply nth_error_In. exact Hi.
Qed.

Lemma C7_toggle_twice_witness :
  let st := Examples.page [Examples.high; Examples.low] in
  let st1 := Page.run (Page.toggleTask (Examples.serving Examples.low)
                                       Examples.low) st in
  nth_error (Page.tasks st) 1 = Some Examples.low
  /\ applies_update (Examples.serving Examples.low) Examples.low
  /\ nth_error (Page.tasks st1) 1
     = Some (Task.set_completed Examples.low true)
  /\ nth_error
       (Page.tasks
          (Page.run (Page.toggleTask (Examples.serving Examples.low)
                       (Task.set_completed Examples.low true)) st1)) 1
     = Some Examples.low.
Proof.
  assert (Happ : applies_update (Examples.serving Examples.low) Examples.low)
    by (intros c; reflexivity).
  pose proof (C7_toggle_twice (Examples.serving Examples.low)
                (Examples.page [Examples.high; Examples.low])
                Examples.low 1 eq_refl Happ) as (H1 & H2 & _).
  split; [reflexivity|]. split; [exact Happ|]. split; [exact H1|exact H2].
Defined.


(** ** The create request *)

Lemma new_row_with_extras (session : Service.Session)
    (data : FormData.FormData) (tags subtasks recurring : option jsstring) :
  Page.new_row session (with_extras data tags subtasks recurring)
  = Page.new_row session data.
Proof. reflexivity. Qed.

(** C8: a create request that [addTask] issues is made under a session and
    its row holds five entries and no other: the user reference of the
    session, the title, the due date or null, the note or null, and the
    priority or "Medium" (an empty value counts as absent); no entry is keyed
    tags, subtasks or recurring_interval.  Whatever these three form fields
    hold, [addTask] issues the same requests, and the requests of
    [toggleTask] and [deleteTask] do not depend on the form at all. *)
Theorem C8_create_request_fields (supabase : Service.Service)
    (st : Page.State) (data other : FormData.FormData) (row : Service.Row)
    (tags subtasks recurring : option jsstring) (task : Task.Task)
    (id : jsstring) :
  In (Service.Insert row) (emitted (Page.addTask supabase data) st) ->
  (exists session,
     Service.getSession supabase = Some session
     /\ row
        = [ (lit "user_id", Service.JString (Service.user_id session));
            (lit "title", Service.JString (FormData.title data));
            (lit "due_date",
             match FormData.due_date data with
             | Some (c :: s) => Service.JString (c :: s)
             | _ => Service.JNull
             end);
            (lit "note",
             match FormData.note data with
             | Some (c :: s) => Service.JString (c :: s)
             | _ => Service.JNull
             end);
            (lit "priority",
             match FormData.priority data with
             | Some (c :: s) => Service.JString (c :: s)
             | _ => Service.JString (lit "Medium")
             end) ])
  /\ field (lit "tags") row = None
  /\ field (lit "subtasks") row = None
  /\ field (lit "recurring_interval") row = None
  /\ emitted (Page.addTask supabase
                (with_extras data tags subtasks recurring)) st
     = emitted (Page.addTask supabase data) st
  /\ emitted (Page.toggleTask supabase task) (with_form other st)
     = emitted (Page.toggleTask supabase task) st
  /\ emitted (Page.deleteTask supabase id) (with_form other st)
     = emitted (Page.deleteTask supabase id) st.
Proof.
  intros Hin.
  assert (Hrow : exists session,
             Service.getSession supabase = Some session
             /\ row = Page.new_row session data).
  { rewrite addTask_emitted in Hin.
    destruct (negb (truthy (trim (FormData.title data)))); [contradiction|].
    destruct (Service.getSession supabase) as [session|].
    - exists session. split; [reflexivity|].
      destruct Hin as [Hin|[Hin|Hin]]; [discriminate|congruence|].
      destruct (Service.error _); [|contradiction].
      destruct Hin as [Hin|[]]. discriminate.
    - destruct Hin as [Hin|[]]. discriminate. }
  destruct Hrow as (session & Hs & ->).
  split; [|do 3 (split; [reflexivity|]); split; [|split]].
  - exists session. split; [exact Hs|].
    unfold Page.new_row, Page.or_null, Page.or_medium, truthy_string.
    destruct (FormData.due_date data) as [[|? ?]|],
             (FormData.note data) as [[|? ?]|],
             (FormData.priority data) as [[|? ?]|]; reflexivity.
  - rewrite !addTask_emitted. reflexivity.
  - rewrite !toggleTask_emitted. reflexivity.
  - rewrite !deleteTask_emitted. reflexivity.
Qed.

Lemma C8_create_request_fields_witness :
  let st := Examples.page [Examples.high] in
  let row := [ (lit "user_id", Service.JString (lit "user-1"));
               (lit "title", Service.JString (lit "Buy milk"));
               (lit "due_date", Service.JNull);
               (lit "note", Service.JNull);
               (lit "priority", Service.JString (lit "Medium")) ] in
  emitted (Page.addTask (Examples.serving Examples.low)
                        (Examples.draft "Buy milk")) st
  = [Service.GetSession; Service.Insert row]
  /\ field (lit "tags") row = None
  /\ emitted (Page.addTask (Examples.serving Examples.low)
                (with_extras (Examples.draft "Buy milk") None None None)) st
     = emitted (Page.addTask (Examples.serving Examples.low)
                             (Examples.draft "Buy milk")) st.
Proof.
  assert (Hin : In
    (Service.Insert
       [ (lit "user_id", Service.JString (lit "user-1"));
         (lit "title", Service.JString (lit "Buy milk"));
         (lit "due_date", Service.JNull);
         (lit "note", Service.JNull);
         (lit "priority", Service.JString (lit "Medium")) ])
    (emitted (Page.addTask (Examples.serving Examples.low)
                           (Examples.draft "Buy milk"))
             (Examples.page [Examples.high])))
    by (right; left; reflexivity).
  pose proof (C8_create_request_fields (Examples.serving Examples.low)
                (Examples.page [Examples.high]) (Examples.draft "Buy milk")
                FormData.empty _ None None None Examples.high (lit "h") Hin)
    as (_ & Htags & _ & _ & Hsame & _).
  split; [reflexivity|]. split; [exact Htags|exact Hsame].
Defined.

(** C10: when the title holds a code unit that is not white space and a
    session is active, [addTask] issues the create request and the row
    carries the title as the form holds it, leading and trailing white space
    included; the trimmed title is only what the emptiness test looks at. *)
Theorem C10_title_sent_untrimmed (supabase : Service.Service)
    (st : Page.State) (data : FormData.FormData)
    (session : Service.Session) :
  blank (FormData.title data) = false ->
  Service.getSession supabase = Some session ->
  exists row rest,
    emitted (Page.addTask supabase data) st
    = Service.GetSession :: Service.Insert row :: rest
    /\ field (lit "title") row = Some (Service.JString (FormData.title data)).
Proof.
  intros Hnb Hs. rewrite addTask_emitted, Hs, (not_blank_trim _ Hnb). simpl.
  eexists. eexists. split; reflexivity.
Qed.

Lemma C10_title_sent_untrimmed_witness :
  blank (FormData.title Examples.padded_draft) = false
  /\ trim (FormData.title Examples.padded_draft) = lit "Buy milk"
  /\ FormData.title Examples.padded_draft = lit "  Buy milk "
  /\ exists row rest,
       emitted (Page.addTask (Examples.serving Examples.low)
                             Examples.padded_draft)
               (Examples.page [])
       = Service.GetSession :: Service.Insert row :: rest
       /\ field (lit "title") row = Some (Service.JString (lit "  Buy milk ")).
Proof.
  split; [reflexivity|]. split; [reflexivity|]. split; [reflexivity|].
  exact (C10_title_sent_untrimmed (Examples.serving Examples.low)
           (Examples.page []) Examples.padded_draft Examples.session
           eq_refl eq_refl).
Defined.

(** ** The wizard *)

Lemma click_step (b : Page.Button) (st : Page.State) :
  Page.step (Page.click b st)
  = match b with
    | Page.Back => if 1 <? Page.step st then Page.step st - 1 else Page.step st
    | Page.Next => if Page.step st <? 3 then Page.step st + 1 else Page.step st
    end.
Proof.
  unfold Page.click, Page.rendered. destruct b.
  - destruct (1 <? Page.step st); reflexivity.
  - destruct (Page.step st <? 3); reflexivity.
Qed.

Lemma click_keeps (b : Page.Button) (st : Page.State) :
  Page.form (Page.click b st) = Page.form st
  /\ Page.tasks (Page.click b st) = Page.tasks st
  /\ Page.trace (Page.click b st) = Page.trace st.
Proof.
  unfold Page.click. destruct (Page.rendered b st), b; simpl; auto.
Qed.

Lemma clicks_invariant (bs : list Page.Button) (st : Page.State) :
  1 <= Page.step st <= 3 ->
  1 <= Page.step (Page.clicks bs st) <= 3
  /\ Page.form (Page.clicks bs st) = Page.form st.
Proof.
  revert st. induction bs as [|b bs IH]; intros st Hst; simpl; [auto|].
  assert (Hb : 1 <= Page.step (Page.click b st) <= 3).
  { rewrite click_step. destruct b.
    - destruct (1 <? Page.step st) eqn:E; [apply Z.ltb_lt in E|]; lia.
    - destruct (Page.step st <? 3) eqn:E; [apply Z.ltb_lt in E|]; lia. }
  destruct (IH _ Hb) as [Hstep Hform]. split; [exact Hstep|].
  rewrite Hform. apply click_keeps.
Qed.

(** C9: from the mounted page (step 1), after any sequence of clicks on
    "Back" and "Next" the step is 1, 2 or 3 and the form values are the
    initial ones; a click on "Back" takes 1 off the step when it is above 1
    and does nothing otherwise, a click on "Next" adds 1 when it is below 3
    and does nothing otherwise, and neither changes a form value. *)
Theorem C9_wizard_steps (bs : list Page.Button) (st : Page.State)
    (b : Page.Button) :
  (Page.step (Page.clicks bs Page.initial) = 1
   \/ Page.step (Page.clicks bs Page.initial) = 2
   \/ Page.step (Page.clicks bs Page.initial) = 3)
  /\ Page.form (Page.clicks bs Page.initial) = Page.form Page.initial
  /\ Page.step (Page.click Page.Back st)
     = (if 1 <? Page.step st then Page.step st - 1 else Page.step st)
  /\ Page.step (Page.click Page.Next st)
     = (if Page.step st <? 3 then Page.step st + 1 else Page.step st)
  /\ Page.form (Page.click b st) = Page.form st.
Proof.
  assert (H0 : 1 <= Page.step Page.initial <= 3) by (simpl; lia).
  destruct (clicks_invariant bs Page.initial H0) as [Hstep Hform].
  split; [lia|]. split; [exact Hform|].
  split; [apply (click_step Page.Back)|].
  split; [apply (click_step Page.Next)|]. apply click_keeps.
Qed.


(** * Further properties *)

(** ** More on the sort *)

Section SortMore.
Context {A : Type}.

Lemma place_ext (before1 before2 : A -> A -> bool) (x : A) (rp : list A) :
  (forall a b, before1 a b = before2 a b) ->
  place before1 x rp = place before2 x rp.
Proof.
  intros H. induction rp as [|y rp IH]; simpl; [reflexivity|].
  rewrite H, IH. reflexivity.
Qed.

Lemma insertion_ext (before1 before2 : A -> A -> bool) (l rp : list A) :
  (forall a b, before1 a b = before2 a b) ->
  insertion before1 rp l = insertion before2 rp l.
Proof.
  intros H. revert rp. induction l as [|x l IH]; intros rp; simpl;
    [reflexivity|].
  rewrite (place_ext before1 before2 x rp H). apply IH.
Qed.

Variable before : A -> A -> bool.

(** A list in which no element would move past its predecessor is left as
    it is. *)
Lemma insertion_in_order (l rp : list A) :
  Sorted (fun y x => before x y = false) l ->
  match rp, l with
  | y :: _, x :: _ => before x y = false
  | _, _ => True
  end ->
  insertion before rp l = rev rp ++ l.
Proof.
  revert rp. induction l as [|x l IH]; intros rp Hs Hhd; simpl.
  - rewrite app_nil_r. reflexivity.
  - inversion Hs as [|? ? Hs' Hrel]; subst.
    assert (Hp : place before x rp = x :: rp).
    { destruct rp as [|y rp]; simpl; [reflexivity|]. rewrite Hhd.
      reflexivity. }
    rewrite Hp, IH; simpl.
    + rewrite <- app_assoc. reflexivity.
    + exact Hs'.
    + destruct l as [|x' l]; [exact I|]. inversion Hrel; subst. assumption.
Qed.

(** Elements that every element passes, and that stop at every other
    element, end up in the reverse of their order. *)
Section Reversal.
Variable P : A -> bool.
Hypothesis all_pass : forall x y, P y = true -> before x y = true.
Hypothesis stops : forall x y, P x = true -> P y = false -> before x y = false.

Lemma place_block (x : A) (U D : list A) :
  Forall (fun a => P a = true) U -> Forall (fun a => P a = false) D ->
  place before x (U ++ D)
  = if P x then U ++ x :: D else U ++ place before x D.
Proof.
  intros HU HD. induction HU as [|u U Hu HU IH]; simpl.
  - destruct (P x) eqn:Hx; [|reflexivity].
    destruct HD as [|y D Hy HD]; simpl; [reflexivity|].
    rewrite (stops x y Hx Hy). reflexivity.
  - rewrite (all_pass x u Hu), IH. destruct (P x); reflexivity.
Qed.

Lemma filter_none (l : list A) :
  Forall (fun a => P a = false) l -> List.filter P l = [].
Proof.
  induction 1 as [|a l Ha _ IH]; simpl; [reflexivity|].
  rewrite Ha. exact IH.
Qed.

Lemma filter_every (l : list A) :
  Forall (fun a => P a = true) l -> List.filter P l = l.
Proof.
  induction 1 as [|a l Ha _ IH]; simpl; [reflexivity|].
  rewrite Ha, IH. reflexivity.
Qed.

Lemma insertion_reverses (l U D : list A) :
  Forall (fun a => P a = true) U -> Forall (fun a => P a = false) D ->
  List.filter P (insertion before (U ++ D) l)
  = rev (List.filter P l) ++ rev U.
Proof.
  revert U D. induction l as [|x l IH]; intros U D HU HD; simpl.
  - rewrite rev_app_distr, filter_app.
    rewrite (filter_none (rev D)) by (apply Forall_rev; exact HD).
    rewrite (filter_every (rev U)) by (apply Forall_rev; exact HU).
    reflexivity.
  - rewrite (place_block x U D HU HD). destruct (P x) eqn:Hx.
    + replace (U ++ x :: D) with ((U ++ [x]) ++ D)
        by (rewrite <- app_assoc; reflexivity).
      rewrite IH.
      * simpl. rewrite rev_app_distr, <- app_assoc. reflexivity.
      * apply Forall_app. split; [exact HU|]. repeat constructor. exact Hx.
      * exact HD.
    + apply IH; [exact HU|].
      apply (Permutation_Forall (place_perm before x D)).
      constructor; assumption.
Qed.
End Reversal.
End SortMore.

Lemma sorted_filter {A} (R : A -> A -> Prop) (p : A -> bool) (l : list A) :
  StronglySorted R l -> StronglySorted R (List.filter p l).
Proof.
  induction 1 as [|a l Hs IH Hall]; simpl; [constructor|].
  destruct (p a); [|exact IH]. constructor; [exact IH|].
  rewrite Forall_forall in *. intros x Hx. apply filter_In in Hx.
  apply Hall, Hx.
Qed.

Lemma sorted_impl {A} (R R' : A -> A -> Prop) (l : list A) :
  (forall a b, R a b -> R' a b) -> StronglySorted R l -> StronglySorted R' l.
Proof.
  intros HR. induction 1 as [|a l Hs IH Hall]; constructor; [exact IH|].
  rewrite Forall_forall in *. auto.
Qed.

Lemma localeCompare_same (a : jsstring) : localeCompare a a = 0.
Proof. pose proof (localeCompare_swap a a). lia. Qed.

(** ** The derived list, every mode *)

(** X1: in every sort mode and on every engine, the derived list holds
    exactly the tasks the filter keeps, each as often as the task list holds
    it: no task is lost, repeated or let through. *)
Theorem X1_view_is_the_filtered_list (e : Engine) (tasks : list Task.Task)
    (f : Filter) (s : SortBy) :
  Permutation (List.filter (kept f) tasks) (filteredTasks e tasks f s)
  /\ Forall (fun t => In t tasks /\ kept f t = true)
            (filteredTasks e tasks f s)
  /\ List.length (filteredTasks e tasks f s)
     = List.length (List.filter (kept f) tasks)
  /\ (List.length (filteredTasks e tasks f s) <= List.length tasks)%nat.
Proof.
  pose proof (filteredTasks_perm e tasks f s) as Hp.
  split; [exact Hp|]. split; [|split].
  - apply Forall_forall. intros t Ht.
    apply (Permutation_in _ (Permutation_sym Hp)) in Ht.
    apply filter_In in Ht. exact Ht.
  - symmetry. apply Permutation_length. exact Hp.
  - rewrite <- (Permutation_length Hp). apply filter_length_le.
Qed.

(** ** Sort mode "newest" *)

Lemma newest_le_trans (a b c : Task.Task) :
  newest_le a b -> newest_le b c -> newest_le a c.
Proof.
  unfold newest_le. intros Hab Hbc.
  exact (localeCompare_trans _ _ _ Hbc Hab).
Qed.

Lemma newest_pass (e : Engine) (x y : Task.Task) :
  moves_before e newest_compare x y = true -> newest_le x y.
Proof.
  unfold moves_before, sort_compare, newest_compare, newest_le.
  destruct e; rewrite Z.ltb_lt; [lia|].
  rewrite (localeCompare_swap (or_empty (Task.created_at x))). lia.
Qed.

Lemma newest_stop (e : Engine) (x y : Task.Task) :
  moves_before e newest_compare x y = false <-> newest_le y x.
Proof.
  unfold moves_before, sort_compare, newest_compare, newest_le.
  destruct e; rewrite Z.ltb_ge; [|lia].
  rewrite (localeCompare_swap (or_empty (Task.created_at x))). lia.
Qed.

Lemma newest_sorted (e : Engine) (tasks : list Task.Task) (f : Filter) :
  StronglySorted newest_le (filteredTasks e tasks f Newest).
Proof.
  rewrite filteredTasks_sort. unfold sort.
  apply (insertion_sorted _ (fun _ => True) newest_le).
  - exact newest_le_trans.
  - intros x y _ _. apply newest_pass.
  - intros x y _ _. apply newest_stop.
  - constructor.
  - apply Forall_forall. trivial.
  - constructor.
Qed.


Lemma newest_in_order (e : Engine) (tasks : list Task.Task) (f : Filter) :
  StronglySorted newest_le tasks ->
  filteredTasks e tasks f Newest = List.filter (kept f) tasks.
Proof.
  intros Hs. rewrite filteredTasks_sort. unfold sort.
  rewrite insertion_in_order; [reflexivity| |].
  - apply StronglySorted_Sorted.
    apply (sorted_impl newest_le); [|apply sorted_filter; exact Hs].
    intros y x Hyx. apply newest_stop. exact Hyx.
  - destruct (List.filter (kept f) tasks); exact I.
Qed.



(** ** Sort mode "due", every list *)

Lemma undated_passed (x y : Task.Task) :
  undated y = true -> moves_before EarlierFirst due_compare x y = true.
Proof.
  unfold undated, has_due_date, moves_before, sort_compare, due_compare.
  destruct (truthy_string (Task.due_date y)); [discriminate|reflexivity].
Qed.

Lemma undated_stops (x y : Task.Task) :
  undated x = true -> undated y = false ->
  moves_before EarlierFirst due_compare x y = false.
Proof.
  unfold undated, has_due_date, moves_before, sort_compare, due_compare.
  destruct (truthy_string (Task.due_date y)); [|discriminate].
  destruct (truthy_string (Task.due_date x)); [discriminate|reflexivity].
Qed.

(** X4: on every engine, sort mode "due" lists the tasks in ascending order
    of their due dates with every task that has none (or an empty one) after
    every task that has one, and tasks due on the same date keep their
    order. *)
Theorem X4_due_order (e : Engine) (tasks : list Task.Task) (f : Filter) :
  StronglySorted due_le (filteredTasks e tasks f Due)
  /\ (forall i j a b,
        nth_error (filteredTasks e tasks f Due) i = Some a ->
        nth_error (filteredTasks e tasks f Due) j = Some b ->
        has_due_date a = true -> has_due_date b = false -> (i < j)%nat)
  /\ (forall d,
        List.filter (due_is d) (filteredTasks e tasks f Due)
        = List.filter (due_is d) (List.filter (kept f) tasks)).
Proof.
  split; [apply due_sorted|]. split; [apply due_dated_first|].
  intros d. rewrite filteredTasks_sort. unfold sort.
  rewrite insertion_filter; [reflexivity|].
  intros x y Hx Hy.
  unfold due_is, moves_before, sort_compare, comparator, due_compare in *.
  destruct (truthy_string (Task.due_date x)) as [dx|]; [|discriminate].
  destruct (truthy_string (Task.due_date y)) as [dy|]; [|discriminate].
  apply eqb_eq in Hx, Hy. subst dx dy. rewrite localeCompare_same.
  destruct e; reflexivity.
Qed.

(** X5: the tasks without a due date follow the engine.  Where the sort asks
    [comparefn(later, earlier)] they stand in the derived list in the order
    of the task list; where it asks [comparefn(earlier, later)] they stand
    in the reverse of that order. *)
Theorem X5_undated_order_by_engine (tasks : list Task.Task) (f : Filter) :
  List.filter undated (filteredTasks LaterFirst tasks f Due)
  = List.filter undated (List.filter (kept f) tasks)
  /\ List.filter undated (filteredTasks EarlierFirst tasks f Due)
     = rev (List.filter undated (List.filter (kept f) tasks)).
Proof.
  split; [apply due_undated_stable|].
  rewrite filteredTasks_sort. unfold sort.
  pose proof (insertion_reverses _ undated undated_passed undated_stops
                (List.filter (kept f) tasks) [] []
                (Forall_nil _) (Forall_nil _)) as H.
  simpl in H. rewrite app_nil_r in H. exact H.
Qed.

(** ** The two engines *)

Lemma priority_compare_swap (x y : Task.Task) :
  sort_compare priority_compare y x = - sort_compare priority_compare x y.
Proof.
  unfold sort_compare, priority_compare, minus.
  destruct (to_number (rank_value x)), (to_number (rank_value y)); lia.
Qed.


(** ** Creating, in full *)

(** X7: when the title is not blank, a session is active and the service
    reports no error, [addTask] puts the returned row, if there is one, in
    front of the task list, empties the form and returns the wizard to step
    1, having issued the session query and one create request; submitting
    the emptied form again changes nothing. *)
Theorem X7_addTask_success (supabase : Service.Service) (st : Page.State)
    (data : FormData.FormData) (session : Service.Session) :
  blank (FormData.title data) = false ->
  Service.getSession supabase = Some session ->
  Service.error (Service.insert_row supabase (Page.new_row session data))
  = None ->
  let st' := Page.run (Page.addTask supabase data) st in
  Page.tasks st'
  = match Service.data
            (Service.insert_row supabase (Page.new_row session data)) with
    | Some newTask => newTask :: Page.tasks st
    | None => Page.tasks st
    end
  /\ Page.form st' = FormData.empty
  /\ Page.step st' = 1
  /\ Page.filter st' = Page.filter st
  /\ Page.sortBy st' = Page.sortBy st
  /\ emitted (Page.addTask supabase data) st
     = [Service.GetSession; Service.Insert (Page.new_row session data)]
  /\ Page.submit supabase st' = st'.
Proof.
  intros Hnb Hs Herr st'.
  assert (Hem : emitted (Page.addTask supabase data) st
                = [Service.GetSession;
                   Service.Insert (Page.new_row session data)]).
  { rewrite addTask_emitted, (not_blank_trim _ Hnb), Hs, Herr. reflexivity. }
  assert (Hform : Page.form st' = FormData.empty).
  { unfold st', Page.run, Page.addTask.
    rewrite (not_blank_trim _ Hnb). simpl. rewrite Hs. simpl.
    rewrite Herr. destruct (Service.data _); reflexivity. }
  repeat split; try exact Hem; try exact Hform.
  1-4: unfold st', Page.run, Page.addTask;
       rewrite (not_blank_trim _ Hnb); simpl; rewrite Hs; simpl;
       rewrite Herr; destruct (Service.data _); reflexivity.
  unfold Page.submit. rewrite Hform. reflexivity.
Qed.

Lemma X7_addTask_success_witness :
  let st := Examples.page [Examples.high] in
  let st' := Page.run (Page.addTask (Examples.serving Samples.created)
                                    (Examples.draft "Buy milk")) st in
  blank (FormData.title (Examples.draft "Buy milk")) = false
  /\ Page.tasks st' = [Samples.created; Examples.high]
  /\ Page.step st' = 1
  /\ Page.submit (Examples.serving Samples.created) st' = st'.
Proof.
  pose proof (X7_addTask_success (Examples.serving Samples.created)
                (Examples.page [Examples.high]) (Examples.draft "Buy milk")
                Examples.session eq_refl eq_refl eq_refl)
    as (Htasks & _ & Hstep & _ & _ & _ & Hagain).
  split; [reflexivity|]. split; [exact Htasks|]. split; [exact Hstep|].
  exact Hagain.
Defined.

(** X8: [addTask] stays silent exactly when the title is blank: it adds
    nothing to the trace if and only if every code unit of the title is
    white space, and otherwise what it adds starts with the session
    query. *)
Theorem X8_addTask_silent_iff_blank (supabase : Service.Service)
    (st : Page.State) (data : FormData.FormData) :
  (emitted (Page.addTask supabase data) st = []
   <-> blank (FormData.title data) = true)
  /\ (emitted (Page.addTask supabase data) st = []
      \/ exists rest,
           emitted (Page.addTask supabase data) st
           = Service.GetSession :: rest).
Proof.
  rewrite addTask_emitted.
  destruct (blank (FormData.title data)) eqn:Hb.
  - rewrite (blank_trim _ Hb). simpl. split; [tauto|auto].
  - rewrite (not_blank_trim _ Hb). simpl. split.
    + split; discriminate.
    + right. eexists. reflexivity.
Qed.

(** X9: without a session [addTask] stops after the session query: no
    create request, no console line, and the task list, the form values and
    the wizard step are as before. *)
Theorem X9_addTask_without_session (supabase : Service.Service)
    (st : Page.State) (data : FormData.FormData) :
  Service.getSession supabase = None ->
  blank (FormData.title data) = false ->
  same_page st (Page.run (Page.addTask supabase data) st)
  /\ emitted (Page.addTask supabase data) st = [Service.GetSession].
Proof.
  intros Hs Hnb. rewrite addTask_emitted, (not_blank_trim _ Hnb), Hs.
  split; [|reflexivity].
  unfold same_page, Page.run, Page.addTask.
  rewrite (not_blank_trim _ Hnb). simpl. rewrite Hs. simpl. tauto.
Qed.

Lemma X9_addTask_without_session_witness :
  Service.getSession Samples.signed_out = None
  /\ blank (FormData.title Examples.padded_draft) = false
  /\ emitted (Page.addTask Samples.signed_out Examples.padded_draft)
             (Examples.page [Examples.low])
     = [Service.GetSession].
Proof.
  split; [reflexivity|]. split; [reflexivity|].
  exact (proj2 (X9_addTask_without_session Samples.signed_out
                  (Examples.page [Examples.low]) Examples.padded_draft
                  eq_refl eq_refl)).
Defined.

(** ** Deleting and toggling, every list *)

Lemma toggleTask_tasks (supabase : Service.Service) (task : Task.Task)
    (st : Page.State) :
  Page.tasks (Page.run (Page.toggleTask supabase task) st)
  = match Service.error
            (Service.update_row supabase (Task.id task)
                                (negb (Task.completed task))),
          Service.data
            (Service.update_row supabase (Task.id task)
                                (negb (Task.completed task)))
    with
    | None, Some updatedTask =>
        map (fun t => if JsString.eqb (Task.id t) (Task.id updatedTask)
                      then updatedTask else t)
            (Page.tasks st)
    | _, _ => Page.tasks st
    end.
Proof.
  unfold Page.run, Page.toggleTask. simpl.
  destruct (Service.error _); [reflexivity|].
  destruct (Service.data _); reflexivity.
Qed.

Lemma replaced_ids (u : Task.Task) (l : list Task.Task) :
  map Task.id
      (map (fun t => if JsString.eqb (Task.id t) (Task.id u) then u else t) l)
  = map Task.id l.
Proof.
  rewrite map_map. apply map_ext. intros t.
  destruct (JsString.eqb (Task.id t) (Task.id u)) eqn:E; [|reflexivity].
  apply eqb_eq in E. congruence.
Qed.

Lemma nodup_filter_ids (p : Task.Task -> bool) (l : list Task.Task) :
  NoDup (map Task.id l) -> NoDup (map Task.id (List.filter p l)).
Proof.
  induction l as [|t l IH]; simpl; intros H; [constructor|].
  inversion H as [|? ? Hnotin Hnd]; subst.
  destruct (p t); simpl; [constructor|]; auto.
  intros Hin. apply Hnotin. apply in_map_iff in Hin.
  destruct Hin as (x & Hx & Hin). apply filter_In in Hin.
  apply in_map_iff. exists x. tauto.
Qed.

(** X10: a [deleteTask id] that the service accepts leaves in the task list
    exactly the entries whose identifier is not [id], however many carried
    it; a second one changes nothing more, and when no entry carries [id]
    the list is as before. *)
Theorem X10_delete_by_identifier (supabase : Service.Service)
    (id : jsstring) (st : Page.State) :
  Service.delete_row supabase id = None ->
  let st' := Page.run (Page.deleteTask supabase id) st in
  (forall t, In t (Page.tasks st')
             <-> In t (Page.tasks st) /\ Task.id t <> id)
  /\ ~ In id (map Task.id (Page.tasks st'))
  /\ Page.tasks (Page.run (Page.deleteTask supabase id) st') = Page.tasks st'
  /\ (~ In id (map Task.id (Page.tasks st)) -> Page.tasks st' = Page.tasks st).
Proof.
  intros Hok st'.
  assert (Hkeep : forall t : Task.Task,
            negb (JsString.eqb (Task.id t) id) = true <-> Task.id t <> id).
  { intros t. rewrite negb_true_iff.
    destruct (JsString.eqb (Task.id t) id) eqn:E.
    - apply eqb_eq in E. split; [discriminate|contradiction].
    - split; [|reflexivity]. intros _ H. apply eqb_eq in H. congruence. }
  assert (Hin : forall t, In t (Page.tasks st')
                          <-> In t (Page.tasks st) /\ Task.id t <> id).
  { intros t. unfold st'. rewrite (deleteTask_success _ _ _ Hok).
    rewrite filter_In, Hkeep. reflexivity. }
  split; [exact Hin|]. split; [|split].
  - intros H. apply in_map_iff in H. destruct H as (t & Hid & Ht).
    apply Hin in Ht. tauto.
  - rewrite (deleteTask_success _ _ _ Hok). apply filter_keeps_all.
    intros t Ht. apply Hkeep. apply Hin in Ht. tauto.
  - intros Hnot. unfold st'. rewrite (deleteTask_success _ _ _ Hok).
    apply filter_keeps_all. intros t Ht. apply Hkeep. intros Hid.
    apply Hnot. rewrite <- Hid. apply in_map. exact Ht.
Qed.

Lemma X10_delete_by_identifier_witness :
  let st := Examples.page [Examples.twin_done; Examples.high;
                           Examples.twin_open] in
  Service.delete_row (Examples.serving Examples.low) (lit "1") = None
  /\ Page.tasks (Page.run (Page.deleteTask (Examples.serving Examples.low)
                                           (lit "1")) st)
     = [Examples.high]
  /\ ~ In (lit "1")
         (map Task.id
            (Page.tasks (Page.run (Page.deleteTask
                                     (Examples.serving Examples.low)
                                     (lit "1")) st))).
Proof.
  split; [reflexivity|]. split; [reflexivity|].
  exact (proj1 (proj2 (X10_delete_by_identifier
                         (Examples.serving Examples.low) (lit "1")
                         (Examples.page [Examples.twin_done; Examples.high;
                                         Examples.twin_open])
                         eq_refl))).
Defined.

Lemma toggleTask_ids (supabase : Service.Service) (task : Task.Task)
    (st : Page.State) :
  map Task.id (Page.tasks (Page.run (Page.toggleTask supabase task) st))
  = map Task.id (Page.tasks st).
Proof.
  rewrite toggleTask_tasks.
  destruct (Service.error _); [reflexivity|].
  destruct (Service.data _); [apply replaced_ids|reflexivity].
Qed.

(** X11: whatever the service answers, [toggleTask] never changes which
    identifiers the task list holds nor where: the list of identifiers is
    the same before and after, and the filter, the sort mode, the wizard
    step and the form values are untouched. *)
Theorem X11_toggle_keeps_identifiers (supabase : Service.Service)
    (task : Task.Task) (st : Page.State) :
  map Task.id (Page.tasks (Page.run (Page.toggleTask supabase task) st))
  = map Task.id (Page.tasks st)
  /\ List.length (Page.tasks (Page.run (Page.toggleTask supabase task) st))
     = List.length (Page.tasks st)
  /\ Page.filter (Page.run (Page.toggleTask supabase task) st)
     = Page.filter st
  /\ Page.sortBy (Page.run (Page.toggleTask supabase task) st)
     = Page.sortBy st
  /\ Page.step (Page.run (Page.toggleTask supabase task) st) = Page.step st
  /\ Page.form (Page.run (Page.toggleTask supabase task) st) = Page.form st.
Proof.
  pose proof (toggleTask_ids supabase task st) as Hids.
  split; [exact Hids|]. split.
  - rewrite <- (length_map Task.id), Hids. apply length_map.
  - unfold Page.run, Page.toggleTask. simpl.
    destruct (Service.error _); simpl; [tauto|].
    destruct (Service.data _); simpl; tauto.
Qed.

(** X12: the handlers keep the identifiers of the task list pairwise
    distinct.  If they are so before, they are so after [toggleTask] and
    after [deleteTask], whatever the service answers, and after [addTask]
    provided the row the service returns carries an identifier the list does
    not hold yet. *)
Theorem X12_identifiers_stay_distinct (supabase : Service.Service)
    (st : Page.State) (data : FormData.FormData) (task : Task.Task)
    (id : jsstring) :
  NoDup (map Task.id (Page.tasks st)) ->
  (forall row newTask,
     Service.data (Service.insert_row supabase row) = Some newTask ->
     ~ In (Task.id newTask) (map Task.id (Page.tasks st))) ->
  NoDup (map Task.id (Page.tasks (Page.run (Page.addTask supabase data) st)))
  /\ NoDup (map Task.id
              (Page.tasks (Page.run (Page.toggleTask supabase task) st)))
  /\ NoDup (map Task.id
              (Page.tasks (Page.run (Page.deleteTask supabase id) st))).
Proof.
  intros Hnd Hfresh. split; [|split].
  - unfold Page.run, Page.addTask.
    destruct (negb (truthy (trim (FormData.title data)))); simpl; [exact Hnd|].
    destruct (Service.getSession supabase) as [session|]; simpl;
      [|exact Hnd].
    destruct (Service.error _); simpl; [exact Hnd|].
    destruct (Service.data _) as [newTask|] eqn:E; simpl; [|exact Hnd].
    constructor; [|exact Hnd]. apply (Hfresh _ _ E).
  - rewrite toggleTask_ids. exact Hnd.
  - unfold Page.run, Page.deleteTask. simpl.
    destruct (Service.delete_row supabase id); simpl; [exact Hnd|].
    apply nodup_filter_ids. exact Hnd.
Qed.

Lemma X12_identifiers_stay_distinct_witness :
  let st := Examples.page [Examples.high; Examples.low] in
  NoDup (map Task.id (Page.tasks st))
  /\ NoDup (map Task.id
              (Page.tasks (Page.run (Page.addTask
                                       (Examples.serving Samples.created)
                                       (Examples.draft "Buy milk")) st)))
  /\ Page.tasks (Page.run (Page.addTask (Examples.serving Samples.created)
                                        (Examples.draft "Buy milk")) st)
     = [Samples.created; Examples.high; Examples.low].
Proof.
  assert (Hnd : NoDup (map Task.id [Examples.high; Examples.low])).
  { repeat constructor; simpl; intros H;
      repeat (destruct H as [H|H]; [discriminate H|]); exact H. }
  assert (Hfresh : forall row newTask,
            Service.data
              (Service.insert_row (Examples.serving Samples.created) row)
            = Some newTask ->
            ~ In (Task.id newTask)
                 (map Task.id [Examples.high; Examples.low])).
  { intros row newTask H. injection H as <-. simpl. intros H.
    repeat (destruct H as [H|H]; [discriminate H|]). exact H. }
  split; [exact Hnd|]. split; [|reflexivity].
  exact (proj1 (X12_identifiers_stay_distinct
                  (Examples.serving Samples.created)
                  (Examples.page [Examples.high; Examples.low])
                  (Examples.draft "Buy milk") Examples.high (lit "h")
                  Hnd Hfresh)).
Defined.

(** ** Acting on the items of the list *)

Lemma shown_task_in (e : Engine) (tasks : list Task.Task) (f : Filter)
    (s : SortBy) (i : nat) (task : Task.Task) :
  nth_error (filteredTasks e tasks f s) i = Some task ->
  In task tasks /\ kept f task = true.
Proof.
  intros H. apply nth_error_In in H.
  apply (Permutation_in _ (Permutation_sym (filteredTasks_perm e tasks f s)))
    in H.
  apply filter_In in H. exact H.
Qed.



(** X14: ticking the checkbox of an item, on a service that applies the
    update to the row of that task, moves its identifier from one filter
    mode to the other: a pending task is afterwards shown under "completed"
    and no longer under "pending", a completed one the other way round; it
    stays under "all", and every other identifier is shown where it was. *)
Theorem X14_checkbox_moves_task (e : Engine) (supabase : Service.Service)
    (st : Page.State) (i : nat) (task : Task.Task) :
  nth_error (filteredTasks e (Page.tasks st) (Page.filter st)
                           (Page.sortBy st)) i = Some task ->
  applies_update supabase task ->
  forall e' s,
    let after := Page.tasks (Render.onChange e supabase i st) in
    In (Task.id task)
       (shown_ids e' after
                  (if Task.completed task then Pending else Completed) s)
    /\ ~ In (Task.id task)
           (shown_ids e' after
                      (if Task.completed task then Completed else Pending) s)
    /\ In (Task.id task) (shown_ids e' after All s)
    /\ (forall f j, j <> Task.id task ->
          (In j (shown_ids e' after f s)
           <-> In j (shown_ids e' (Page.tasks st) f s))).
Proof.
  intros Hi Happ e' s after.
  destruct (shown_task_in _ _ _ _ _ _ Hi) as [Hin _].
  set (t1 := Task.set_completed task (negb (Task.completed task))).
  assert (Hafter : after
    = map (fun u => if JsString.eqb (Task.id u) (Task.id task) then t1 else u)
          (Page.tasks st)).
  { unfold after, Render.onChange. rewrite Hi.
    rewrite (toggleTask_success supabase task t1); [reflexivity|apply Happ]. }
  assert (Ht1 : In t1 after).
  { rewrite Hafter. apply in_map_iff. exists task.
    rewrite eqb_refl. auto. }
  assert (Honly : forall u, In u after -> Task.id u = Task.id task -> u = t1).
  { intros u Hu Hid. rewrite Hafter in Hu. apply in_map_iff in Hu.
    destruct Hu as (v & Hv & _).
    destruct (JsString.eqb (Task.id v) (Task.id task)) eqn:E; [congruence|].
    subst v. rewrite <- Hid, eqb_refl in E. discriminate. }
  repeat split.
  - apply shown_ids_in. exists t1. split; [exact Ht1|]. split; [|reflexivity].
    unfold t1. destruct (Task.completed task); reflexivity.
  - intros H. apply shown_ids_in in H. destruct H as (u & Hu & Hk & Hid).
    rewrite (Honly u Hu Hid) in Hk. unfold t1 in Hk.
    destruct (Task.completed task); discriminate.
  - apply shown_ids_in. exists t1. auto.
  - rewrite !shown_ids_in. intros (u & Hu & Hk & Hid).
    rewrite Hafter in Hu. apply in_map_iff in Hu. destruct Hu as (v & Hv & Hin').
    destruct (JsString.eqb (Task.id v) (Task.id task)) eqn:E.
    + subst u. subst j. contradiction H. reflexivity.
    + subst v. exists u. auto.
  - rewrite !shown_ids_in. intros (u & Hu & Hk & Hid).
    exists u. split; [|auto]. rewrite Hafter. apply in_map_iff. exists u.
    destruct (JsString.eqb (Task.id u) (Task.id task)) eqn:E; [|auto].
    apply eqb_eq in E. congruence.
Qed.

Lemma X14_checkbox_moves_task_witness :
  let st := Samples.pending_page [Examples.high; Examples.low] in
  let after := Page.tasks (Render.onChange LaterFirst
                             (Examples.serving Examples.low) 1 st) in
  shown_ids LaterFirst (Page.tasks st) Pending Priority = [lit "h"; lit "l"]
  /\ applies_update (Examples.serving Examples.low) Examples.low
  /\ shown_ids LaterFirst after Pending Priority = [lit "h"]
  /\ In (lit "l") (shown_ids LaterFirst after Completed Priority).
Proof.
  assert (Happ : applies_update (Examples.serving Examples.low) Examples.low)
    by (intros c; reflexivity).
  split; [reflexivity|]. split; [exact Happ|]. split; [reflexivity|].
  exact (proj1 (X14_checkbox_moves_task LaterFirst
                  (Examples.serving Examples.low)
                  (Samples.pending_page [Examples.high; Examples.low])
                  1 Examples.low eq_refl Happ LaterFirst Priority)).
Defined.

(** ** The rendered list *)

Lemma filteredTasks_kept (e : Engine) (tasks : list Task.Task) (f : Filter)
    (s : SortBy) :
  Forall (fun t => kept f t = true) (filteredTasks e tasks f s).
Proof.
  apply Forall_forall. intros t Ht.
  apply (Permutation_in _ (Permutation_sym (filteredTasks_perm e tasks f s)))
    in Ht.
  apply filter_In in Ht. apply Ht.
Qed.

Lemma taskList_items (e : Engine) (st : Page.State) :
  Render.taskList e st
  = match filteredTasks e (Page.tasks st) (Page.filter st) (Page.sortBy st)
    with
    | [] => Render.NoTasksToShow
    | t :: l => Render.Items (map Render.item (t :: l))
    end.
Proof.
  unfold Render.taskList.
  destruct (filteredTasks e (Page.tasks st) (Page.filter st)
                          (Page.sortBy st)); reflexivity.
Qed.

Lemma taskList_empty (e : Engine) (st : Page.State) :
  Render.taskList e st = Render.NoTasksToShow
  <-> List.filter (kept (Page.filter st)) (Page.tasks st) = [].
Proof.
  rewrite taskList_items.
  pose proof (filteredTasks_perm e (Page.tasks st) (Page.filter st)
                                 (Page.sortBy st)) as Hp.
  destruct (filteredTasks e (Page.tasks st) (Page.filter st)
                          (Page.sortBy st)) as [|t l].
  - apply Permutation_sym, Permutation_nil in Hp. tauto.
  - split; [discriminate|]. intros Hnil. rewrite Hnil in Hp.
    apply Permutation_nil in Hp. discriminate.
Qed.

(** X15: the list shows "No tasks to show." exactly when the filter keeps no
    task of the task list; otherwise it shows one item for each task the
    filter keeps, whatever the sort mode and the engine. *)
Theorem X15_placeholder_or_items (e : Engine) (st : Page.State) :
  match Render.taskList e st with
  | Render.NoTasksToShow =>
      List.filter (kept (Page.filter st)) (Page.tasks st) = []
  | Render.Items items =>
      List.filter (kept (Page.filter st)) (Page.tasks st) <> []
      /\ Permutation
           (map Render.item
                (List.filter (kept (Page.filter st)) (Page.tasks st)))
           items
  end.
Proof.
  rewrite taskList_items.
  pose proof (filteredTasks_perm e (Page.tasks st) (Page.filter st)
                                 (Page.sortBy st)) as Hp.
  destruct (filteredTasks e (Page.tasks st) (Page.filter st)
                          (Page.sortBy st)) as [|t l].
  - apply Permutation_sym, Permutation_nil in Hp. exact Hp.
  - split.
    + intros Hnil. rewrite Hnil in Hp. apply Permutation_nil in Hp.
      discriminate.
    + apply Permutation_map. exact Hp.
Qed.

(** X16: the keys of the items are the identifiers of the derived list, in
    its order; an item is struck through exactly when its checkbox is
    ticked; under filter mode "completed" every checkbox is ticked and under
    "pending" none is. *)
Theorem X16_items_follow_the_filter (e : Engine) (st : Page.State) :
  match Render.taskList e st with
  | Render.NoTasksToShow => True
  | Render.Items items =>
      map Render.key items
      = shown_ids e (Page.tasks st) (Page.filter st) (Page.sortBy st)
      /\ Forall (fun it => Render.struck it = Render.checked it) items
      /\ match Page.filter st with
         | All => True
         | Completed => Forall (fun it => Render.checked it = true) items
         | Pending => Forall (fun it => Render.checked it = false) items
         end
  end.
Proof.
  rewrite taskList_items. unfold shown_ids.
  pose proof (filteredTasks_kept e (Page.tasks st) (Page.filter st)
                                 (Page.sortBy st)) as Hall.
  destruct (filteredTasks e (Page.tasks st) (Page.filter st)
                          (Page.sortBy st)) as [|t l]; [exact I|].
  split; [rewrite map_map; reflexivity|]. split.
  - apply Forall_forall. intros it Hit. apply in_map_iff in Hit.
    destruct Hit as (u & <- & _). simpl.
    destruct (Task.completed u); reflexivity.
  - rewrite Forall_forall in Hall.
    destruct (Page.filter st); [exact I| |];
      apply Forall_forall; intros it Hit; apply in_map_iff in Hit;
      destruct Hit as (u & <- & Hu); apply Hall in Hu; simpl in *.
    + exact Hu.
    + apply negb_true_iff. exact Hu.
Qed.

(** X17: when the identifiers of the task list are pairwise distinct, so are
    the keys of the items of the list, in every filter mode and sort mode
    and on every engine. *)
Theorem X17_item_keys_distinct (e : Engine) (st : Page.State) :
  NoDup (map Task.id (Page.tasks st)) ->
  match Render.taskList e st with
  | Render.NoTasksToShow => True
  | Render.Items items => NoDup (map Render.key items)
  end.
Proof.
  intros Hnd. rewrite taskList_items.
  pose proof (filteredTasks_perm e (Page.tasks st) (Page.filter st)
                                 (Page.sortBy st)) as Hp.
  destruct (filteredTasks e (Page.tasks st) (Page.filter st)
                          (Page.sortBy st)) as [|t l]; [exact I|].
  rewrite map_map.
  apply (Permutation_NoDup (Permutation_map Task.id Hp)).
  apply nodup_filter_ids. exact Hnd.
Qed.

Lemma X17_item_keys_distinct_witness :
  let st := Samples.pending_page [Examples.low; Examples.unranked;
                                  Examples.high] in
  NoDup (map Task.id (Page.tasks st))
  /\ match Render.taskList EarlierFirst st with
     | Render.NoTasksToShow => True
     | Render.Items items =>
         map Render.key items = [lit "h"; lit "l"]
         /\ NoDup (map Render.key items)
     end.
Proof.
  assert (Hnd : NoDup (map Task.id
            [Examples.low; Examples.unranked; Examples.high])).
  { repeat constructor; simpl; intros H;
      repeat (destruct H as [H|H]; [discriminate H|]); exact H. }
  split; [exact Hnd|].
  pose proof (X17_item_keys_distinct EarlierFirst
                (Samples.pending_page [Examples.low; Examples.unranked;
                                       Examples.high]) Hnd) as H.
  split; [reflexivity|exact H].
Defined.

(** ** The wizard form *)

Lemma clicks_step_bound (bs : list Page.Button) (st : Page.State) :
  Page.step (Page.clicks bs st) <= Page.step st + Z.of_nat (List.length bs).
Proof.
  revert st. induction bs as [|b bs IH]; intros st; simpl List.length.
  - simpl. lia.
  - simpl Page.clicks. specialize (IH (Page.click b st)).
    rewrite click_step in IH.
    destruct b; [destruct (1 <? Page.step st)|destruct (Page.step st <? 3)];
      lia.
Qed.

(** X18: after any sequence of clicks on "Back" and "Next" from the mounted
    page, the form shows the inputs of exactly one step: at step 1 the title
    and the priority with "Next"; at step 2 the due date and the note with
    "Back" and "Next"; at step 3 the tags, the subtasks and the recurrence
    with "Back" and "Add Task".  "Add Task" is never shown together with
    "Next", and never before two clicks. *)
Theorem X18_wizard_controls (bs : list Page.Button) :
  (Render.wizard (Page.clicks bs Page.initial)
   = [Render.TitleInput; Render.PrioritySelect; Render.NextButton]
   \/ Render.wizard (Page.clicks bs Page.initial)
      = [Render.DueDateInput; Render.NoteInput; Render.BackButton;
         Render.NextButton]
   \/ Render.wizard (Page.clicks bs Page.initial)
      = [Render.TagsInput; Render.SubtasksInput; Render.RecurringSelect;
         Render.BackButton; Render.AddTaskButton])
  /\ (In Render.AddTaskButton (Render.wizard (Page.clicks bs Page.initial))
      -> (2 <= List.length bs)%nat).
Proof.
  assert (H0 : 1 <= Page.step Page.initial <= 3) by (simpl; lia).
  destruct (clicks_invariant bs Page.initial H0) as [Hstep _].
  pose proof (clicks_step_bound bs Page.initial) as Hb.
  change (Page.step Page.initial) with 1 in Hb.
  unfold Render.wizard.
  assert (Hcases : Page.step (Page.clicks bs Page.initial) = 1
                   \/ Page.step (Page.clicks bs Page.initial) = 2
                   \/ Page.step (Page.clicks bs Page.initial) = 3) by lia.
  destruct Hcases as [E|[E|E]]; rewrite E in *; simpl.
  - split; [auto|]. intros H. repeat (destruct H as [H|H]; [discriminate H|]).
    contradiction.
  - split; [auto|]. intros H. repeat (destruct H as [H|H]; [discriminate H|]).
    contradiction.
  - split; [auto|]. intros _. lia.
Qed.

(** X19: in the wizard "Next" and "Back" undo each other.  In every state
    reached by clicks from the mounted page, if "Next" is shown then
    "Next" followed by "Back" gives the same state again, and if "Back" is
    shown then "Back" followed by "Next" does. *)
Theorem X19_next_back_round_trip (bs : list Page.Button) :
  let st := Page.clicks bs Page.initial in
  (if Page.rendered Page.Next st
   then Page.click Page.Back (Page.click Page.Next st) = st
   else Page.click Page.Next st = st)
  /\ (if Page.rendered Page.Back st
      then Page.click Page.Next (Page.click Page.Back st) = st
      else Page.click Page.Back st = st).
Proof.
  intros st.
  assert (H0 : 1 <= Page.step Page.initial <= 3) by (simpl; lia).
  destruct (clicks_invariant bs Page.initial H0) as [Hstep _].
  fold st in Hstep. destruct st as [tasks f s step form trace].
  unfold Page.click, Page.rendered, Page.run, Page.onClick. simpl in *.
  split.
  - destruct (step <? 3) eqn:E; [|reflexivity]. simpl.
    apply Z.ltb_lt in E.
    replace (1 <? step + 1) with true by (symmetry; apply Z.ltb_lt; lia).
    simpl. f_equal. lia.
  - destruct (1 <? step) eqn:E; [|reflexivity]. simpl.
    apply Z.ltb_lt in E.
    replace (step - 1 <? 3) with true by (symmetry; apply Z.ltb_lt; lia).
    simpl. f_equal. lia.
Qed.

(** ** Colours *)

(** X20: the priority that colours the inputs of the form is the priority
    the create request would carry: both fall back to "Medium" when the
    form holds none or an empty one, so an unset priority is shown in the
    colour of "Medium". *)
Theorem X20_form_colour_is_priority_sent (st : Page.State)
    (session : Service.Session) :
  field (lit "priority") (Page.new_row session (Page.form st))
  = Some (Service.JString (Render.selectedPriority st))
  /\ match FormData.priority (Page.form st) with
     | Some (c :: p) => Render.selectedPriority st = c :: p
     | _ =>
         Render.selectedPriority st = lit "Medium"
         /\ Render.getFormColor (Render.selectedPriority st)
            = lit "border-yellow-500 focus:ring-yellow-300 bg-yellow-50"
     end.
Proof.
  unfold Render.selectedPriority, Page.new_row, Page.or_medium, truthy_string.
  destruct (FormData.priority (Page.form st)) as [[|c p]|]; simpl;
    repeat split; reflexivity.
Qed.



(** ** Loading *)

Lemma fetchTasks_tasks (b : Loader.Backend) (st : Page.State) :
  Page.tasks (fst (Loader.fetchTasks b st))
  = match Loader.current_session b, Loader.failure (Loader.select_all b) with
    | Some _, None =>
        match Loader.rows (Loader.select_all b) with
        | Some data => data
        | None => []
        end
    | _, _ => Page.tasks st
    end.
Proof.
  unfold Loader.fetchTasks.
  destruct (Loader.current_session b); [|reflexivity].
  destruct (Loader.failure (Loader.select_all b)); reflexivity.
Qed.

Lemma fetchTasks_rest (b : Loader.Backend) (st : Page.State) :
  Page.filter (fst (Loader.fetchTasks b st)) = Page.filter st
  /\ Page.sortBy (fst (Loader.fetchTasks b st)) = Page.sortBy st
  /\ Page.step (fst (Loader.fetchTasks b st)) = Page.step st
  /\ Page.form (fst (Loader.fetchTasks b st)) = Page.form st
  /\ Page.trace (fst (Loader.fetchTasks b st)) = Page.trace st.
Proof.
  unfold Loader.fetchTasks.
  destruct (Loader.current_session b); [|tauto].
  destruct (Loader.failure (Loader.select_all b)); simpl; tauto.
Qed.

Lemma filter_kept_all (l : list Task.Task) : List.filter (kept All) l = l.
Proof. apply filter_all. Qed.

(** X22: right after the load, the page shows "No tasks to show." exactly
    when there is no session, or the select failed, or it returned no rows;
    the login page is visited exactly when there is no session, and the
    select is issued exactly when there is one. *)
Theorem X22_first_load (e : Engine) (b : Loader.Backend) :
  (Render.taskList e (fst (Loader.fetchTasks b Page.initial))
   = Render.NoTasksToShow
   <-> Loader.current_session b = None
       \/ Loader.failure (Loader.select_all b) <> None
       \/ Loader.rows (Loader.select_all b) = None
       \/ Loader.rows (Loader.select_all b) = Some [])
  /\ (In (Loader.Push (lit "/login"))
         (snd (Loader.fetchTasks b Page.initial))
      <-> Loader.current_session b = None)
  /\ (In (Loader.SelectTasks (lit "created_at") false)
         (snd (Loader.fetchTasks b Page.initial))
      <-> Loader.current_session b <> None).
Proof.
  split; [|split].
  - rewrite taskList_empty, fetchTasks_tasks.
    rewrite (proj1 (fetchTasks_rest b Page.initial)).
    change (Page.filter Page.initial) with All. rewrite filter_kept_all.
    change (Page.tasks Page.initial) with (@nil Task.Task).
    destruct (Loader.current_session b) as [session|];
      [|intuition congruence].
    destruct (Loader.failure (Loader.select_all b)) as [message|];
      [intuition congruence|].
    destruct (Loader.rows (Loader.select_all b)) as [[|t data]|];
      intuition congruence.
  - unfold Loader.fetchTasks.
    destruct (Loader.current_session b) as [session|]; simpl;
      [|intuition congruence].
    destruct (Loader.failure (Loader.select_all b)); simpl;
      intuition congruence.
  - unfold Loader.fetchTasks.
    destruct (Loader.current_session b) as [session|]; simpl;
      [|intuition congruence].
    destruct (Loader.failure (Loader.select_all b)); simpl;
      intuition congruence.
Qed.



(** ** The login page *)

Lemma acts_cons (supabase : Login.Auth) (a : Login.Action)
    (l : list Login.Action) (st : Login.State) :
  Login.acts supabase (a :: l) st
  = (fst (Login.acts supabase l (fst (Login.act supabase a st))),
     snd (Login.act supabase a st)
     ++ snd (Login.acts supabase l (fst (Login.act supabase a st)))).
Proof.
  simpl. destruct (Login.act supabase a st) as [st1 out1]. simpl.
  destruct (Login.acts supabase l st1); reflexivity.
Qed.





(** ** Switching modes *)

Lemma filter_split {A} (p : A -> bool) (l : list A) :
  Permutation (List.filter p l ++ List.filter (fun x => negb (p x)) l) l.
Proof.
  induction l as [|a l IH]; simpl; [constructor|].
  destruct (p a); simpl.
  - constructor. exact IH.
  - rewrite <- Permutation_middle. constructor. exact IH.
Qed.

(** X27: the two selects above the list only select and reorder.  Changing
    the sort mode, or the engine, shows the same items in another order; and
    the items shown under "completed" together with those shown under
    "pending" are the items shown under "all", each as often, whether or not
    identifiers repeat. *)
Theorem X27_modes_select_and_reorder (e e' : Engine) (st : Page.State)
    (s : SortBy) :
  Permutation
    (filteredTasks e (Page.tasks st) (Page.filter st) (Page.sortBy st))
    (filteredTasks e' (Page.tasks (Render.setSortBy s st))
                   (Page.filter (Render.setSortBy s st))
                   (Page.sortBy (Render.setSortBy s st)))
  /\ Permutation
       (filteredTasks e (Page.tasks (Render.setFilter Completed st))
                      (Page.filter (Render.setFilter Completed st))
                      (Page.sortBy (Render.setFilter Completed st))
        ++ filteredTasks e (Page.tasks (Render.setFilter Pending st))
                         (Page.filter (Render.setFilter Pending st))
                         (Page.sortBy (Render.setFilter Pending st)))
       (filteredTasks e (Page.tasks (Render.setFilter All st))
                      (Page.filter (Render.setFilter All st))
                      (Page.sortBy (Render.setFilter All st))).
Proof.
  simpl. split.
  - rewrite <- (filteredTasks_perm e), <- (filteredTasks_perm e').
    reflexivity.
  - rewrite <- !filteredTasks_perm. rewrite filter_kept_all.
    apply (filter_split Task.completed).
Qed.

(** ** Creating: all or nothing *)

(** X28: [addTask] has two outcomes and nothing in between.  Either one
    create request was issued and answered without error, and then the form
    is empty and the wizard shows step 1 again; or the task list, the form
    values and the wizard are exactly as before. *)
Theorem X28_addTask_all_or_nothing (supabase : Service.Service)
    (st : Page.State) (data : FormData.FormData) :
  let st' := Page.run (Page.addTask supabase data) st in
  (Render.wizard st'
   = [Render.TitleInput; Render.PrioritySelect; Render.NextButton]
   /\ Page.form st' = FormData.empty
   /\ exists session,
        emitted (Page.addTask supabase data) st
        = [Service.GetSession; Service.Insert (Page.new_row session data)]
        /\ Service.error
             (Service.insert_row supabase (Page.new_row session data))
           = None)
  \/ (Render.wizard st' = Render.wizard st
      /\ Page.form st' = Page.form st
      /\ Page.tasks st' = Page.tasks st).
Proof.
  intros st'. unfold st'. rewrite addTask_emitted.
  unfold Page.run, Page.addTask, Render.wizard.
  destruct (negb (truthy (trim (FormData.title data)))); simpl; [auto|].
  destruct (Service.getSession supabase) as [session|]; simpl; [|auto].
  destruct (Service.error _) eqn:E; simpl; [auto|].
  left. destruct (Service.data _); simpl; eauto.
Qed.
